(** * obsidian-avif: the paste-to-embed pipeline of [src/main.ts]

    A shallow embedding of the plugin's paste handler: platform detection,
    clipboard classification, attachment path resolution, the two chained
    external processes, and the document mutation.

    Conventions.
    - A JavaScript string is a [string]: for the editor operations its
      characters stand for code units, for [encodeURI]/[decodeURI] they are
      the bytes of the UTF-8 form of a well-formed string.
    - JavaScript numbers used as indices are [Z] (so that [-1] is the
      "not found" answer of [indexOf]).
    - A computation that may throw returns a [result].
    - The host (Obsidian editor, Electron clipboard, Node [path] and
      [child_process], moment, [Math.random]) is not part of the
      repository: the editor is an interface with laws, processes are an
      oracle, the clock and the random draw are inputs, and the Node and
      ECMAScript library functions are modelled after their documented
      behaviour. *)

From Stdlib Require Import Bool Arith ZArith Lia List Ascii String.
From Stdlib Require Decimal DecimalString.
Import ListNotations.
Open Scope string_scope.

(* ===================================================================== *)
(** ** JavaScript strings *)
(* ===================================================================== *)

Module JsString.

Definition nl : ascii := "010"%char.
Definition dquote : ascii := "034"%char.
Definition slash : ascii := "/"%char.
Definition dot : ascii := "."%char.
Definition percent : ascii := "%"%char.

(** [s.startsWith(p)] *)
Fixpoint startsWith (s p : string) {struct p} : bool :=
  match p with
  | EmptyString => true
  | String c p' =>
      match s with
      | EmptyString => false
      | String d s' => Ascii.eqb d c && startsWith s' p'
      end
  end.

(** The least position at which [t] starts in [s], if there is one. *)
Fixpoint find (s t : string) : option nat :=
  if startsWith s t then Some 0
  else match s with
       | EmptyString => None
       | String _ s' => option_map S (find s' t)
       end.

(** [s.indexOf(t)]: the position, or [-1]. *)
Definition indexOf (s t : string) : Z :=
  match find s t with
  | Some n => Z.of_nat n
  | None => (-1)%Z
  end.

(** [s.slice(0, n)] and [s.slice(n)] for an index [n >= 0]. *)
Fixpoint take (n : nat) (s : string) : string :=
  match n, s with
  | S n', String c s' => String c (take n' s')
  | _, _ => EmptyString
  end.

Fixpoint drop (n : nat) (s : string) : string :=
  match n, s with
  | S n', String _ s' => drop n' s'
  | _, _ => s
  end.

(** [s.slice(a, b)] for [0 <= a]: empty when [b <= a]. *)
Definition slice (s : string) (a b : nat) : string := take (b - a) (drop a s).

(** [s.substr(start, len)] for [0 <= start]. *)
Definition substr (s : string) (start len : nat) : string := take len (drop start s).

(** [s.split(sep)] for a one-character separator: never the empty list. *)
Fixpoint split (sep : ascii) (s : string) : list string :=
  match s with
  | EmptyString => [EmptyString]
  | String c s' =>
      if Ascii.eqb c sep then EmptyString :: split sep s'
      else match split sep s' with
           | l :: ls => String c l :: ls
           | [] => [String c EmptyString]
           end
  end.

(** [parts.join(sep)] for a one-character separator. *)
Fixpoint join (sep : ascii) (parts : list string) : string :=
  match parts with
  | [] => EmptyString
  | [l] => l
  | l :: ls => l ++ String sep (join sep ls)
  end.

(** [s.replace(pat, rep)] with a string pattern: the first occurrence only.
    The plugin's replacement is the empty string, so the [$]-patterns of
    the replacement text play no part. *)
Definition replace (s pat rep : string) : string :=
  match find s pat with
  | Some n => take n s ++ rep ++ drop (n + length pat) s
  | None => s
  end.

(** [s.replace(new RegExp(String.fromCharCode(c), "g"), "")]: every
    occurrence of one character removed. *)
Fixpoint removeAll (c : ascii) (s : string) : string :=
  match s with
  | EmptyString => EmptyString
  | String d s' => if Ascii.eqb d c then removeAll c s' else String d (removeAll c s')
  end.

Definition lowerChar (c : ascii) : ascii :=
  let n := nat_of_ascii c in
  if ((65 <=? n)%nat && (n <=? 90)%nat)%bool then ascii_of_nat (n + 32) else c.

(** [s.toLowerCase()] on the ASCII letters. No character outside ASCII
    lower-cases to one of the letters of the extensions the plugin tests
    for, so the membership test of [isAssetTypeAnImage] is not affected. *)
Fixpoint toLowerCase (s : string) : string :=
  match s with
  | EmptyString => EmptyString
  | String c s' => String (lowerChar c) (toLowerCase s')
  end.

(** [list.indexOf(x) !== -1] on a list of strings. *)
Definition includes (l : list string) (x : string) : bool :=
  existsb (String.eqb x) l.

(** [x] occurs in [s] as a contiguous run of characters. *)
Definition Occurs (x s : string) : Prop :=
  exists pre post, s = pre ++ x ++ post.

(** No line break in [s]. *)
Fixpoint nlfree (s : string) : bool :=
  match s with
  | EmptyString => true
  | String c s' => negb (Ascii.eqb c nl) && nlfree s'
  end.

End JsString.
Import JsString.

(* ===================================================================== *)
(** ** Exceptions *)
(* ===================================================================== *)

Inductive JsError : Type :=
| TypeError (msg : string)
| URIError (msg : string).

Inductive result (A : Type) : Type :=
| Ok (a : A)
| Throw (e : JsError).
Arguments Ok {A} a.
Arguments Throw {A} e.

Definition bind {A B : Type} (r : result A) (f : A -> result B) : result B :=
  match r with
  | Ok a => f a
  | Throw e => Throw e
  end.

Notation "x <- c ;; k" := (bind c (fun x => k))
  (at level 61, c at next level, right associativity).

(* ===================================================================== *)
(** ** Node's [path] module, POSIX flavour (the plugin runs on MacOS) *)
(* ===================================================================== *)

Module NodePath.

(** One step of [normalizeString] on the segment between two separators:
    empty segments and [.] are skipped, [..] removes the last kept segment
    unless there is none or it is itself [..], in which case it is kept
    only when the path may climb above its root. The kept segments are
    held last-first. *)
Definition normalizeStep (allowAboveRoot : bool) (kept : list string) (seg : string)
  : list string :=
  if String.eqb seg EmptyString || String.eqb seg "." then kept
  else if String.eqb seg ".." then
    match kept with
    | top :: below =>
        if String.eqb top ".." then seg :: kept else below
    | [] => if allowAboveRoot then [seg] else []
    end
  else seg :: kept.

(** [normalizeString(path, allowAboveRoot, "/", isPosixPathSeparator)]:
    the kept segments joined by [/], with no leading or trailing separator. *)
Definition normalizeString (path : string) (allowAboveRoot : bool) : string :=
  join slash (rev (fold_left (normalizeStep allowAboveRoot) (split slash path) [])).

Definition isAbsolute (path : string) : bool := startsWith path "/".

Fixpoint endsWithSlash (path : string) : bool :=
  match path with
  | EmptyString => false
  | String c EmptyString => Ascii.eqb c slash
  | String _ rest => endsWithSlash rest
  end.

(** [path.normalize(p)] *)
Definition normalize (path : string) : string :=
  match path with
  | EmptyString => "."
  | _ =>
      let abs := isAbsolute path in
      let trailingSeparator := endsWithSlash path in
      let p := normalizeString path (negb abs) in
      match p with
      | EmptyString => if abs then "/" else if trailingSeparator then "./" else "."
      | _ =>
          let p' := if trailingSeparator then p ++ "/" else p in
          if abs then "/" ++ p' else p'
      end
  end.

(** The loop of [path.join]: the non-empty arguments, separated by [/]. *)
Fixpoint joinArgs (joined : option string) (args : list string) : option string :=
  match args with
  | [] => joined
  | arg :: rest =>
      match arg with
      | EmptyString => joinArgs joined rest
      | _ =>
          joinArgs (Some (match joined with
                          | None => arg
                          | Some j => j ++ "/" ++ arg
                          end)) rest
      end
  end.

(** [path.join(...args)] *)
Definition join (args : list string) : string :=
  match joinArgs None args with
  | None => "."
  | Some joined => normalize joined
  end.

(** The loop of [path.resolve], from the last argument to the first and
    then the working directory ([i = -1]), until an absolute one is met.
    [rargs] is the argument list reversed. *)
Fixpoint resolveArgs (cwd : string) (rargs : list string) (resolvedPath : string)
  : string * bool :=
  match rargs with
  | [] =>
      match cwd with
      | EmptyString => (resolvedPath, false)
      | _ => (cwd ++ "/" ++ resolvedPath, isAbsolute cwd)
      end
  | p :: rest =>
      match p with
      | EmptyString => resolveArgs cwd rest resolvedPath
      | _ =>
          if isAbsolute p then (p ++ "/" ++ resolvedPath, true)
          else resolveArgs cwd rest (p ++ "/" ++ resolvedPath)
      end
  end.

(** [path.resolve(...args)], with the process's working directory [cwd]. *)
Definition resolve (cwd : string) (args : list string) : string :=
  let '(resolvedPath, resolvedAbsolute) := resolveArgs cwd (rev args) EmptyString in
  let p := normalizeString resolvedPath (negb resolvedAbsolute) in
  if resolvedAbsolute then "/" ++ p
  else match p with
       | EmptyString => "."
       | _ => p
       end.

(** The variables of the loop of [path.extname]. *)
Record ExtState : Type := mkExtState {
  startDot : Z;
  startPart : Z;
  endIdx : Z;
  matchedSlash : bool;
  preDotState : Z
}.

(** The loop of [path.extname], from the last character ([i = length - 1])
    to the first; [rchars] holds the characters from position [i] down. *)
Fixpoint extnameLoop (rchars : list ascii) (i : Z) (st : ExtState) : ExtState :=
  match rchars with
  | [] => st
  | code :: more =>
      if Ascii.eqb code slash then
        if negb (matchedSlash st) then
          mkExtState (startDot st) (i + 1) (endIdx st) (matchedSlash st) (preDotState st)
        else extnameLoop more (i - 1) st
      else
        let st1 :=
          if (endIdx st =? -1)%Z
          then mkExtState (startDot st) (startPart st) (i + 1) false (preDotState st)
          else st in
        let st2 :=
          if Ascii.eqb code dot then
            if (startDot st1 =? -1)%Z
            then mkExtState i (startPart st1) (endIdx st1) (matchedSlash st1) (preDotState st1)
            else if negb (preDotState st1 =? 1)%Z
            then mkExtState (startDot st1) (startPart st1) (endIdx st1) (matchedSlash st1) 1
            else st1
          else if negb (startDot st1 =? -1)%Z
          then mkExtState (startDot st1) (startPart st1) (endIdx st1) (matchedSlash st1) (-1)
          else st1 in
        extnameLoop more (i - 1) st2
  end.

(** [path.extname(p)] *)
Definition extname (path : string) : string :=
  let st := extnameLoop (rev (list_ascii_of_string path))
                        (Z.of_nat (length path) - 1)
                        (mkExtState (-1) 0 (-1) true 0) in
  if (startDot st =? -1)%Z || (endIdx st =? -1)%Z || (preDotState st =? 0)%Z
     || ((preDotState st =? 1)%Z && (startDot st =? endIdx st - 1)%Z
         && (startDot st =? startPart st + 1)%Z)
  then EmptyString
  else JsString.slice path (Z.to_nat (startDot st)) (Z.to_nat (endIdx st)).

End NodePath.

(* ===================================================================== *)
(** ** [encodeURI] and [decodeURI] *)
(* ===================================================================== *)

Module Uri.

Fixpoint inSet (c : ascii) (set : string) : bool :=
  match set with
  | EmptyString => false
  | String d rest => Ascii.eqb c d || inSet c rest
  end.

Definition isAlphaNum (c : ascii) : bool :=
  let n := nat_of_ascii c in
  ((48 <=? n) && (n <=? 57) || (65 <=? n) && (n <=? 90) || (97 <=? n) && (n <=? 122))%nat.

(** The reserved characters of a URI, and the number sign. *)
Definition uriReservedPlusHash : string := ";/?:@&=+$,#".

(** The marks that need no escape. *)
Definition uriMark : string := "-_.!~*'()".

(** The characters [encodeURI] leaves as they are. *)
Definition unescaped (c : ascii) : bool :=
  isAlphaNum c || inSet c uriMark || inSet c uriReservedPlusHash.

Definition hexDigit (n : nat) : ascii :=
  match get n "0123456789ABCDEF" with
  | Some c => c
  | None => "0"%char
  end.

Definition hexVal (c : ascii) : option nat :=
  let n := nat_of_ascii c in
  if ((48 <=? n) && (n <=? 57))%nat then Some (n - 48)
  else if ((65 <=? n) && (n <=? 70))%nat then Some (n - 55)
  else if ((97 <=? n) && (n <=? 102))%nat then Some (n - 87)
  else None.

Definition escape (c : ascii) : string :=
  let n := nat_of_ascii c in
  String percent (String (hexDigit (n / 16)) (String (hexDigit (n mod 16)) EmptyString)).

(** [encodeURI(s)]: each byte of the UTF-8 form of [s] is kept when it is
    an unescaped character and written as [%XX] otherwise. *)
Fixpoint encodeURI (s : string) : string :=
  match s with
  | EmptyString => EmptyString
  | String c rest =>
      (if unescaped c then String c EmptyString else escape c) ++ encodeURI rest
  end.

(** What [decodeURI] reads: a character, or an escape [%hl] of value [b]. *)
Inductive UriTok : Type :=
| Lit (c : ascii)
| Esc (h l : ascii) (b : nat).

Definition malformed : JsError := URIError "URI malformed".

Fixpoint lex (s : string) : result (list UriTok) :=
  match s with
  | EmptyString => Ok []
  | String c rest =>
      if Ascii.eqb c percent then
        match rest with
        | String h (String l rest') =>
            match hexVal h, hexVal l with
            | Some a, Some b =>
                toks <- lex rest' ;; Ok (Esc h l (16 * a + b) :: toks)
            | _, _ => Throw malformed
            end
        | _ => Throw malformed
        end
      else toks <- lex rest ;; Ok (Lit c :: toks)
  end.

Definition within (lo hi b : nat) : bool := ((lo <=? b) && (b <=? hi))%nat.
Definition cont (b : nat) : bool := within 128 191 b.

(** The well-formed UTF-8 sequences of two, three and four bytes. *)
Definition valid2 (b1 b2 : nat) : bool := within 194 223 b1 && cont b2.

Definition valid3 (b1 b2 b3 : nat) : bool :=
  ((Nat.eqb b1 224 && within 160 191 b2)
   || (within 225 236 b1 && cont b2)
   || (Nat.eqb b1 237 && within 128 159 b2)
   || (within 238 239 b1 && cont b2)) && cont b3.

Definition valid4 (b1 b2 b3 b4 : nat) : bool :=
  ((Nat.eqb b1 240 && within 144 191 b2)
   || (within 241 243 b1 && cont b2)
   || (Nat.eqb b1 244 && within 128 143 b2)) && cont b3 && cont b4.

Definition byte (b : nat) : string := String (ascii_of_nat b) EmptyString.

Fixpoint decodeToks (toks : list UriTok) : result string :=
  match toks with
  | [] => Ok EmptyString
  | Lit c :: r => s <- decodeToks r ;; Ok (String c s)
  | Esc h l b :: r =>
      if (b <? 128)%nat then
        s <- decodeToks r ;;
        Ok ((if inSet (ascii_of_nat b) uriReservedPlusHash
             then String percent (String h (String l EmptyString))
             else byte b) ++ s)
      else if within 192 223 b then
        match r with
        | Esc _ _ b2 :: r' =>
            if valid2 b b2
            then s <- decodeToks r' ;; Ok (byte b ++ byte b2 ++ s)
            else Throw malformed
        | _ => Throw malformed
        end
      else if within 224 239 b then
        match r with
        | Esc _ _ b2 :: Esc _ _ b3 :: r' =>
            if valid3 b b2 b3
            then s <- decodeToks r' ;; Ok (byte b ++ byte b2 ++ byte b3 ++ s)
            else Throw malformed
        | _ => Throw malformed
        end
      else if within 240 247 b then
        match r with
        | Esc _ _ b2 :: Esc _ _ b3 :: Esc _ _ b4 :: r' =>
            if valid4 b b2 b3 b4
            then s <- decodeToks r' ;; Ok (byte b ++ byte b2 ++ byte b3 ++ byte b4 ++ s)
            else Throw malformed
        | _ => Throw malformed
        end
      else Throw malformed
  end.

(** [decodeURI(s)]: escapes of unreserved characters are decoded, escapes
    of reserved ones are kept as written, and an escape that is cut short
    or is no UTF-8 raises [URIError]. *)
Definition decodeURI (s : string) : result string :=
  toks <- lex s ;; decodeToks toks.

End Uri.

(* ===================================================================== *)
(** ** The plugin's inputs *)
(* ===================================================================== *)

(** [ObsidianAvifPluginSettings] *)
Record ObsidianAvifPluginSettings : Type := {
  avifPath : string
}.

Definition DEFAULT_SETTINGS : ObsidianAvifPluginSettings :=
  {| avifPath := "/Users/$USER/go/bin/avif" |}.

(** An entry of [evt.clipboardData.files]. *)
Record File : Type := {
  type : string
}.

(** The paste event, as far as the handler reads it. *)
Record ClipboardEvent : Type := {
  files : list File
}.

(** The active file, as far as the plugin reads it: [parent.path]. *)
Record TFile : Type := {
  parentPath : string
}.

(** The moment [moment(new Date())]: its calendar date, and the
    [postformat] of the locale the host has set for moment, which
    [format] applies to the text it has built (the identity for English
    and most locales; the Arabic-type locales write their own digits). *)
Record Date : Type := {
  year : nat;
  month : nat;
  day : nat;
  postformat : string -> string
}.

(** What the plugin reads from its host when a paste happens. *)
Record Env : Type := {
  appVersion : string;                 (* navigator.appVersion *)
  clipboardRead : string -> string;    (* electron's clipboard.read(format) *)
  getName : string;                    (* vault.adapter.getName() *)
  getBasePath : string;                (* vault.adapter.getBasePath() *)
  attachmentFolderPath : string;       (* vault.config.attachmentFolderPath *)
  getActiveFile : option TFile;        (* workspace.getActiveFile(), or null *)
  cwd : string;                        (* process.cwd(), read by path.resolve *)
  today : Date;                        (* new Date() *)
  randomText : string;                 (* (Math.random() + 1).toString(36) *)
  settings : ObsidianAvifPluginSettings
}.

(* ===================================================================== *)
(** ** Platform detection and clipboard classification *)
(* ===================================================================== *)

(** [getOS()] *)
Definition getOS (env : Env) : string :=
  if negb (indexOf (appVersion env) "Win" =? -1)%Z then "Windows"
  else if negb (indexOf (appVersion env) "Mac" =? -1)%Z then "MacOS"
  else if negb (indexOf (appVersion env) "X11" =? -1)%Z then "Linux"
  else "Unknown OS".

Definition imageExtensions : list string :=
  [".png"; ".jpg"; ".jpeg"; ".bmp"; ".gif"; ".svg"; ".tiff"].

(** [isAssetTypeAnImage(path)] *)
Definition isAssetTypeAnImage (path : string) : bool :=
  includes imageExtensions (toLowerCase (NodePath.extname path)).

(** [isCopyImageFile()] *)
Definition isCopyImageFile (env : Env) : bool :=
  let os := getOS env in
  let filePath :=
    if String.eqb os "Windows" then
      let rawFilePath := clipboardRead env "FileNameW" in
      removeAll zero rawFilePath
    else if String.eqb os "MacOS" then
      replace (clipboardRead env "public.file-url") "file://" EmptyString
    else EmptyString in
  isAssetTypeAnImage filePath.

(** The condition of the paste handler (lines 97 to 101):
    [this.isCopyImageFile() || files.length !== 0 || files[0].type.startsWith("image")].
    The operands are evaluated left to right and as far as needed; reading
    [type] of [files[0]] when there is no such entry raises [TypeError]. *)
Definition isImagePaste (env : Env) (evt : ClipboardEvent) : result bool :=
  if isCopyImageFile env then Ok true
  else if negb (Nat.eqb (List.length (files evt)) 0) then Ok true
  else match nth_error (files evt) 0 with
       | Some f => Ok (startsWith (type f) "image")
       | None => Throw (TypeError "Cannot read properties of undefined (reading 'type')")
       end.

(* ===================================================================== *)
(** ** Path Resolver *)
(* ===================================================================== *)

(** [String(n)] for a natural number. *)
Definition decimal (n : nat) : string :=
  DecimalString.NilEmpty.string_of_uint (Nat.to_uint n).

Fixpoint zeros (n : nat) : string :=
  match n with
  | O => EmptyString
  | S n' => String "0"%char (zeros n')
  end.

(** moment's [zeroFill(number, targetLength)] for a number that is not negative. *)
Definition zeroFill (number targetLength : nat) : string :=
  let absNumber := decimal number in
  zeros (targetLength - length absNumber) ++ absNumber.

(** [moment(d).format("-YYYYMMDD-")]: the tokens [YYYY], [MM] and [DD]
    are the zero-filled year, month and day, the hyphens stand for
    themselves, and the locale's [postformat] is applied to the whole. *)
Definition formatDate (d : Date) : string :=
  postformat d
    ("-" ++ zeroFill (year d) 4 ++ zeroFill (month d) 2 ++ zeroFill (day d) 2 ++ "-").

(** [getFileAssetPath()]. The active file is read before the branch, so a
    missing one raises in both. *)
Definition getFileAssetPath (env : Env) : result string :=
  let basePath := getBasePath env in
  let assetFolder := attachmentFolderPath env in
  match getActiveFile env with
  | None => Throw (TypeError "Cannot read properties of null (reading 'path')")
  | Some activeFile =>
      if startsWith assetFolder "./" then
        activeFolder <- Uri.decodeURI (NodePath.resolve (cwd env) [basePath; parentPath activeFile]) ;;
        Ok (NodePath.join [activeFolder; assetFolder])
      else
        Ok (NodePath.join [basePath; assetFolder])
  end.

(** [getFileAssetPath()] on a vault configuration that may lack the
    setting: [vault.config.attachmentFolderPath] is read unchecked (line
    222), and it is [undefined], here [None], until an attachment folder
    was chosen; [startsWith] is then called on [undefined]. The active
    file is read first. [getFileAssetPath] is this function on a vault
    that has the setting. *)
Definition getFileAssetPathWith (config : option string) (env : Env) : result string :=
  let basePath := getBasePath env in
  match getActiveFile env with
  | None => Throw (TypeError "Cannot read properties of null (reading 'path')")
  | Some activeFile =>
      match config with
      | None =>
          Throw (TypeError "Cannot read properties of undefined (reading 'startsWith')")
      | Some assetFolder =>
          if startsWith assetFolder "./" then
            activeFolder <- Uri.decodeURI (NodePath.resolve (cwd env) [basePath; parentPath activeFile]) ;;
            Ok (NodePath.join [activeFolder; assetFolder])
          else
            Ok (NodePath.join [basePath; assetFolder])
      end
  end.

(** The local constants of [getAvifPasteFile] (lines 113 to 120). *)
Definition timebase (env : Env) : string := formatDate (today env).
Definition baseFile (env : Env) : string := getName env.
Definition randomToken (env : Env) : string := substr (randomText env) 2 7.
Definition randomPrefix (env : Env) : string :=
  baseFile env ++ timebase env ++ randomToken env.
Definition pngPath (env : Env) : string := randomPrefix env ++ ".png".
Definition avifName (env : Env) : string := randomPrefix env ++ ".avif".
Definition fullAvifPath (env : Env) : result string :=
  dir <- getFileAssetPath env ;; Ok (dir ++ "/" ++ avifName env).

(** The two command lines (lines 125 and 126). *)
Definition dumpCommand (env : Env) : string :=
  "/usr/local/bin/pngpaste /tmp/" ++ pngPath env.

Definition encodeCommand (env : Env) (full : string) : string :=
  avifPath (settings env) ++ " --fast -e /tmp/" ++ pngPath env ++ " -o "
  ++ String dquote EmptyString ++ full ++ String dquote EmptyString.

(** [getFileName(fn)] *)
Definition getFileName (fn : string) : string := "file:///" ++ Uri.encodeURI fn.

(** [progressTextFor(id)] *)
Definition progressTextFor (id : string) : string :=
  "![Uploading file..." ++ id ++ "]()".

(* ===================================================================== *)
(** ** The host editor *)
(* ===================================================================== *)

(** [EditorPosition] *)
Record EditorPosition : Type := {
  line : Z;
  ch : Z
}.

(** The offset at which line [n] starts in a text of lines [ls]. *)
Fixpoint lineStart (ls : list string) (n : nat) : nat :=
  match n, ls with
  | S n', l :: rest => length l + 1 + lineStart rest n'
  | _, _ => 0
  end.

(** The offset of a position in a text: the position is clipped to the
    text, as the editor does. *)
Definition posToOffset (doc : string) (p : EditorPosition) : nat :=
  if (line p <? 0)%Z then 0
  else
    let ls := split nl doc in
    match nth_error ls (Z.to_nat (line p)) with
    | None => length doc
    | Some l =>
        lineStart ls (Z.to_nat (line p))
        + Z.to_nat (Z.max 0 (Z.min (ch p) (Z.of_nat (length l))))
    end.

(** The text with the characters from offset [from] up to [to] replaced. *)
Definition splice (doc : string) (from to : nat) (replacement : string) : string :=
  take from doc ++ replacement ++ drop to doc.

(** The part of Obsidian's [Editor] the plugin calls, with what the calls
    do to the text. [selectionRange] is the extent of the selection, as
    offsets; what happens to the selection after an edit is the host's
    business. *)
Class Editor (E : Type) : Type := {
  getValue : E -> string;
  selectionRange : E -> nat * nat;
  replaceRange : string -> EditorPosition -> EditorPosition -> E -> E;
  replaceSelection : string -> E -> E;
  getValue_replaceRange : forall replacement from to e,
    getValue (replaceRange replacement from to e)
    = splice (getValue e) (posToOffset (getValue e) from)
             (posToOffset (getValue e) to) replacement;
  getValue_replaceSelection : forall replacement e,
    getValue (replaceSelection replacement e)
    = splice (getValue e) (fst (selectionRange e)) (snd (selectionRange e)) replacement
}.

(** A plain editor: a text and a selection, the cursor left after what
    was inserted. *)
Record TextEditor : Type := {
  text : string;
  selFrom : nat;
  selTo : nat
}.

Definition textReplace (from to : nat) (replacement : string) (e : TextEditor)
  : TextEditor :=
  {| text := splice (text e) from to replacement;
     selFrom := from + length replacement;
     selTo := from + length replacement |}.

#[export] Instance TextEditor_Editor : Editor TextEditor := {|
  getValue := text;
  selectionRange := fun e => (selFrom e, selTo e);
  replaceRange := fun replacement from to e =>
    textReplace (posToOffset (text e) from) (posToOffset (text e) to) replacement e;
  replaceSelection := fun replacement e =>
    textReplace (selFrom e) (selTo e) replacement e;
  getValue_replaceRange := fun _ _ _ _ => eq_refl;
  getValue_replaceSelection := fun _ _ => eq_refl
|}.

(* ===================================================================== *)
(** ** Document Mutator *)
(* ===================================================================== *)

Section DocumentMutator.

Context {E : Type} `{Editor E}.

(** [insertTemporaryText(editor, progressText)] *)
Definition insertTemporaryText (editor : E) (progressText : string) : E :=
  replaceSelection ("![](" ++ getFileName progressText ++ ")" ++ String nl EmptyString) editor.

(** The loop of [replaceFirstOccurrence] from line [i] on, [lines] being
    the lines from that one: the first line that holds [target] is edited
    and the loop left. *)
Fixpoint replaceFirstOccurrenceFrom (editor : E) (target replacement : string)
  (lines : list string) (i : Z) : E :=
  match lines with
  | [] => editor
  | l :: rest =>
      let c := indexOf l target in
      if negb (c =? -1)%Z then
        let from := {| line := i; ch := c |} in
        let to := {| line := i; ch := (c + Z.of_nat (length target))%Z |} in
        replaceRange replacement from to editor
      else replaceFirstOccurrenceFrom editor target replacement rest (i + 1)
  end.

(** [replaceFirstOccurrence(editor, target, replacement)] *)
Definition replaceFirstOccurrence (editor : E) (target replacement : string) : E :=
  let lines := split nl (getValue editor) in
  replaceFirstOccurrenceFrom editor target replacement lines 0.

(** [embedMarkDownImage(editor, pasteId, imageUrl)] *)
Definition embedMarkDownImage (editor : E) (pasteId imageUrl : string) : E :=
  let progressText := progressTextFor pasteId in
  let markDownImage := "![](" ++ imageUrl ++ ")" in
  replaceFirstOccurrence editor progressText markDownImage.

(** [handleFailedUpload(editor, pasteId, reason)]: what it does to the
    editor (its [console.error] call writes to the console only). *)
Definition handleFailedUpload (editor : E) (pasteId : string) : E :=
  let progressText := progressTextFor pasteId in
  replaceFirstOccurrence editor progressText "⚠️upload failed, check dev console".

End DocumentMutator.

(* ===================================================================== *)
(** ** Conversion Runner and paste handler *)
(* ===================================================================== *)

(** What [child_process.exec] hands to its callback. *)
Record ExecResult : Type := {
  error : option Z;      (* null, or the error with its exit code *)
  stdout : string;
  stderr : string
}.

(** What a run of the handler does to the world outside the editor. *)
Inductive Event : Type :=
| ConsoleLog (args : list string)
| ConsoleDebug (args : list string)
| ConsoleExec (r : ExecResult)        (* console.log(error, stdout, stderr) *)
| Spawn (command : string)            (* child_process.exec starts a process *)
| PreventDefault.

Section Pipeline.

Context {E : Type} `{Editor E}.

(** The handler's code: what it does now, and what it leaves for the
    callback of a process it started. *)
Inductive Prog : Type :=
| Return
| Raise (e : JsError)
| Emit (ev : Event) (next : Prog)
| Edit (f : E -> E) (next : Prog)
| Exec (command : string) (callback : ExecResult -> Prog) (next : Prog).

(** [execute(command, callback)] *)
Definition execute (command : string) (callback : ExecResult -> Prog) (next : Prog)
  : Prog :=
  Exec command (fun r => Emit (ConsoleExec r) (callback r)) next.

(** [getAvifPasteFile(editor)]; [next] is what the caller does with the
    returned path. *)
Definition getAvifPasteFile (env : Env) (next : string -> Prog) : Prog :=
  match getFileAssetPath env with
  | Throw e => Raise e
  | Ok dir =>
      let full := dir ++ "/" ++ avifName env in
      Emit (ConsoleDebug ["pngpath:"; pngPath env])
      (Emit (ConsoleDebug ["avifpath:"; avifName env])
      (Emit (ConsoleDebug ["full avifpath:"; full])
      (Emit (ConsoleDebug ["full avif exec path:"; avifPath (settings env)])
      (execute (dumpCommand env)
         (fun _ =>
            execute (encodeCommand env full)
              (fun _ => Edit (fun editor => insertTemporaryText editor full) Return)
              Return)
         (next full)))))
  end.

(** The callback [setupPasteHandler] registers for [editor-paste]. *)
Definition pasteHandler (env : Env) (evt : ClipboardEvent) : Prog :=
  let os := getOS env in
  if negb (String.eqb os "MacOS") then
    Emit (ConsoleLog ["not macos, pic won't be processed"]) Return
  else
    match isImagePaste env evt with
    | Throw e => Raise e
    | Ok true =>
        Emit (ConsoleLog ["pasting image"])
          (getAvifPasteFile env (fun avif => Emit PreventDefault Return))
    | Ok false => Emit (ConsoleLog ["cannot paste"]) Return
    end.

(** The world a handler runs in. *)
Record World : Type := {
  editor : E;
  events : list Event;          (* oldest first *)
  uncaught : list JsError
}.

Definition emit (ev : Event) (w : World) : World :=
  {| editor := editor w; events := events w ++ [ev]; uncaught := uncaught w |}.

Definition edit (f : E -> E) (w : World) : World :=
  {| editor := f (editor w); events := events w; uncaught := uncaught w |}.

Definition raise (e : JsError) (w : World) : World :=
  {| editor := editor w; events := events w; uncaught := uncaught w ++ [e] |}.

(** Running a handler to the end. [outcome command] is how the process
    started by [command] ends, [None] when it never does. The code that
    follows [exec] runs first, the callback when the process has ended.
    The plugin has at most one process in flight for a paste, so there is
    no order between callbacks to choose. *)
Fixpoint run (outcome : string -> option ExecResult) (p : Prog) (w : World) : World :=
  match p with
  | Return => w
  | Raise e => raise e w
  | Emit ev next => run outcome next (emit ev w)
  | Edit f next => run outcome next (edit f w)
  | Exec command callback next =>
      let w' := run outcome next (emit (Spawn command) w) in
      match outcome command with
      | Some r => run outcome (callback r) w'
      | None => w'
      end
  end.

(** The commands of the processes started so far. *)
Fixpoint spawned (evs : list Event) : list string :=
  match evs with
  | [] => []
  | Spawn command :: rest => command :: spawned rest
  | _ :: rest => spawned rest
  end.

End Pipeline.

(* ===================================================================== *)
(** ** Specification-side definitions and sample inputs *)
(* ===================================================================== *)

(** A document with the placeholder of paste [abc] on two lines. *)
Definition twoPlaceholders : TextEditor :=
  {| text := "intro" ++ String nl ("a ![Uploading file...abc]() b"
              ++ String nl "![Uploading file...abc]() c");
     selFrom := 0;
     selTo := 0 |}.

(** A document that holds no placeholder of paste [abc]. *)
Definition noPlaceholder : TextEditor :=
  {| text := "intro" ++ String nl "![Uploading file...xyz]()";
     selFrom := 2;
     selTo := 3 |}.

(** An [appVersion] that names both systems. *)
Definition bothEnv : Env := {|
  appVersion := "5.0 (Macintosh; like Windows NT)";
  clipboardRead := fun _ => EmptyString;
  getName := "vault";
  getBasePath := "/Users/me/vault";
  attachmentFolderPath := "attachments";
  getActiveFile := Some {| parentPath := "notes" |};
  cwd := "/";
  today := {| year := 2024; month := 3; day := 7; postformat := fun output => output |};
  randomText := "1.9zk3x8d2lq";
  settings := DEFAULT_SETTINGS
|}.

(** The three conditions of the classifier, each as a truth value of its
    own, as the specification words them: (a) the clipboard's file URL
    names an image, (b) the file list is not empty, (c) the first file's
    type starts with [image] (which no file list without a first file
    satisfies). *)
Definition fileUrlIsImage (env : Env) : bool := isCopyImageFile env.

Definition fileListNonEmpty (evt : ClipboardEvent) : bool :=
  negb (Nat.eqb (List.length (files evt)) 0).

Definition firstFileIsImage (evt : ClipboardEvent) : bool :=
  match files evt with
  | f :: _ => startsWith (type f) "image"
  | [] => false
  end.

Definition classifierSpec (env : Env) (evt : ClipboardEvent) : bool :=
  fileUrlIsImage env || fileListNonEmpty evt || firstFileIsImage evt.

(** A paste on a Mac: nothing on the clipboard names a file, the vault
    keeps attachments beside the note, and the random draw was [0.5]. *)
Definition macEnv : Env := {|
  appVersion := "5.0 (Macintosh; Intel Mac OS X 10_15_7) AppleWebKit/537.36";
  clipboardRead := fun _ => EmptyString;
  getName := "vault";
  getBasePath := "/Users/me/vault";
  attachmentFolderPath := "./";
  getActiveFile := Some {| parentPath := "notes" |};
  cwd := "/";
  today := {| year := 2024; month := 3; day := 7; postformat := fun output => output |};
  randomText := "1.i";
  settings := DEFAULT_SETTINGS
|}.

(** A paste on Windows, the path of an image file on the clipboard. *)
Definition winEnv : Env := {|
  appVersion := "5.0 (Windows NT 10.0; Win64; x64) AppleWebKit/537.36";
  clipboardRead := fun _ => "C:\shots\cat.png";
  getName := "vault";
  getBasePath := "C:\Users\me\vault";
  attachmentFolderPath := "attachments";
  getActiveFile := Some {| parentPath := "notes" |};
  cwd := "/";
  today := {| year := 2024; month := 3; day := 7; postformat := fun output => output |};
  randomText := "1.9zk3x8d2lq";
  settings := DEFAULT_SETTINGS
|}.

Definition noFiles : ClipboardEvent := {| files := [] |}.
Definition oneImage : ClipboardEvent := {| files := [ {| type := "image/png" |} ] |}.

Definition emptyWorld : @World TextEditor :=
  {| editor := {| text := "# note"; selFrom := 6; selTo := 6 |};
     events := [];
     uncaught := [] |}.

(** Every process ends well. *)
Definition allSucceed (command : string) : option ExecResult :=
  Some {| error := None; stdout := EmptyString; stderr := EmptyString |}.

(** [pngpaste] ends with status 1 (no image on the clipboard); any other
    process ends well. *)
Definition dumpFails (command : string) : option ExecResult :=
  if startsWith command "/usr/local/bin/pngpaste"
  then Some {| error := Some 1%Z; stdout := EmptyString;
               stderr := "pngpaste: No image data found on the clipboard" |}
  else allSucceed command.

(** The folder of the active document, as [getFileAssetPath] computes it:
    [decodeURI(resolve(basePath, activeFile.parent.path))]. *)
Definition activeDocumentFolder (env : Env) (activeFile : TFile) : result string :=
  Uri.decodeURI (NodePath.resolve (cwd env) [getBasePath env; parentPath activeFile]).

(** A vault that keeps attachments in a subfolder beside the note. *)
Definition subfolderEnv : Env := {|
  appVersion := appVersion macEnv;
  clipboardRead := clipboardRead macEnv;
  getName := "vault";
  getBasePath := "/Users/me/My%20Vault";
  attachmentFolderPath := "./assets";
  getActiveFile := Some {| parentPath := "notes/2024" |};
  cwd := "/";
  today := today macEnv;
  randomText := "1.9zk3x8d2lq";
  settings := DEFAULT_SETTINGS
|}.

(** The raw dump's path, as both command lines spell it. *)
Definition temporaryRawPath (env : Env) : string := "/tmp/" ++ pngPath env.

(** Every character of [s] passes [ok]. *)
Fixpoint allChars (ok : ascii -> bool) (s : string) : bool :=
  match s with
  | EmptyString => true
  | String c rest => ok c && allChars ok rest
  end.

(** What a URI-encoded text is written with: the characters that need no
    escape, and the percent sign of the escapes. *)
Definition uriChar (c : ascii) : bool := Uri.unescaped c || Ascii.eqb c percent.

(** A Mac whose vault path has a space in it, attachments under the root. *)
Definition spacedEnv : Env := {|
  appVersion := appVersion macEnv;
  clipboardRead := fun _ => "file:///Users/me/Desktop/cat.PNG";
  getName := "vault";
  getBasePath := "/Users/me/My Vault";
  attachmentFolderPath := "attachments";
  getActiveFile := Some {| parentPath := "notes" |};
  cwd := "/";
  today := today macEnv;
  randomText := "1.9zk3x8d2lq";
  settings := DEFAULT_SETTINGS
|}.

(** The same host with another clipboard. *)
Definition withClipboard (env : Env) (read : string -> string) : Env := {|
  appVersion := appVersion env;
  clipboardRead := read;
  getName := getName env;
  getBasePath := getBasePath env;
  attachmentFolderPath := attachmentFolderPath env;
  getActiveFile := getActiveFile env;
  cwd := cwd env;
  today := today env;
  randomText := randomText env;
  settings := settings env
|}.

(** The same host with another vault base path. *)
Definition withBasePath (env : Env) (basePath : string) : Env := {|
  appVersion := appVersion env;
  clipboardRead := clipboardRead env;
  getName := getName env;
  getBasePath := basePath;
  attachmentFolderPath := attachmentFolderPath env;
  getActiveFile := getActiveFile env;
  cwd := cwd env;
  today := today env;
  randomText := randomText env;
  settings := settings env
|}.

(** A paste on Linux, the URL of an image file on the clipboard. *)
Definition linuxEnv : Env := {|
  appVersion := "5.0 (X11; Linux x86_64) AppleWebKit/537.36";
  clipboardRead := fun _ => "file:///home/me/cat.png";
  getName := "vault";
  getBasePath := "/home/me/vault";
  attachmentFolderPath := "attachments";
  getActiveFile := Some {| parentPath := "notes" |};
  cwd := "/";
  today := {| year := 2024; month := 3; day := 7; postformat := fun output => output |};
  randomText := "1.9zk3x8d2lq";
  settings := DEFAULT_SETTINGS
|}.

(** A text file and a spreadsheet, dragged from the file manager. *)
Definition twoDocuments : ClipboardEvent :=
  {| files := [ {| type := "text/plain" |}; {| type := "application/vnd.ms-excel" |} ] |}.

(** A Mac with no document open. *)
Definition noDocumentEnv : Env := {|
  appVersion := appVersion macEnv;
  clipboardRead := clipboardRead macEnv;
  getName := "vault";
  getBasePath := "/Users/me/vault";
  attachmentFolderPath := "attachments";
  getActiveFile := None;
  cwd := "/";
  today := today macEnv;
  randomText := "1.9zk3x8d2lq";
  settings := DEFAULT_SETTINGS
|}.

(** A Mac whose vault lives in a folder with a percent sign in its name,
    attachments beside the note. *)
Definition percentEnv : Env := {|
  appVersion := appVersion macEnv;
  clipboardRead := clipboardRead macEnv;
  getName := "100% done";
  getBasePath := "/Users/me/100% done";
  attachmentFolderPath := "./assets";
  getActiveFile := Some {| parentPath := "notes" |};
  cwd := "/";
  today := today macEnv;
  randomText := "1.9zk3x8d2lq";
  settings := DEFAULT_SETTINGS
|}.

(** A note at the top of the vault (the root folder's path is [/]),
    attachments in a subfolder beside the note. *)
Definition rootNoteEnv : Env := {|
  appVersion := appVersion macEnv;
  clipboardRead := clipboardRead macEnv;
  getName := "vault";
  getBasePath := "/Users/me/vault";
  attachmentFolderPath := "./assets";
  getActiveFile := Some {| parentPath := "/" |};
  cwd := "/Applications/Obsidian.app";
  today := today macEnv;
  randomText := "1.9zk3x8d2lq";
  settings := DEFAULT_SETTINGS
|}.

(** The dump never ends. *)
Definition dumpHangs (command : string) : option ExecResult :=
  if startsWith command "/usr/local/bin/pngpaste" then None else allSucceed command.

(** The dump ends well, the encoder is not where the settings say. *)
Definition encoderMissing (command : string) : option ExecResult :=
  if startsWith command "/usr/local/bin/pngpaste" then allSucceed command
  else Some {| error := Some 127%Z; stdout := EmptyString;
               stderr := "/bin/sh: /Users/$USER/go/bin/avif: No such file or directory" |}.

(** The two characters after a percent sign are hexadecimal digits. *)
Definition twoHex (rest : string) : bool :=
  match rest with
  | String h (String l _) =>
      match Uri.hexVal h, Uri.hexVal l with
      | Some _, Some _ => true
      | _, _ => false
      end
  | _ => false
  end.

(** [s] is well-formed UTF-8: the bytes of a JavaScript string without
    lone surrogates. *)
Fixpoint wellFormed (s : string) : bool :=
  match s with
  | EmptyString => true
  | String c1 r1 =>
      let b1 := nat_of_ascii c1 in
      if (b1 <? 128)%nat then wellFormed r1
      else if Uri.within 192 223 b1 then
        match r1 with
        | String c2 r2 => Uri.valid2 b1 (nat_of_ascii c2) && wellFormed r2
        | _ => false
        end
      else if Uri.within 224 239 b1 then
        match r1 with
        | String c2 (String c3 r3) =>
            Uri.valid3 b1 (nat_of_ascii c2) (nat_of_ascii c3) && wellFormed r3
        | _ => false
        end
      else if Uri.within 240 247 b1 then
        match r1 with
        | String c2 (String c3 (String c4 r4)) =>
            Uri.valid4 b1 (nat_of_ascii c2) (nat_of_ascii c3) (nat_of_ascii c4)
            && wellFormed r4
        | _ => false
        end
      else false
  end.

(** The text of a path with a Chinese folder name, in UTF-8. *)
Definition unicodePath : string :=
  "/Users/me/" ++ Uri.byte 228 ++ Uri.byte 189 ++ Uri.byte 160 ++ " 100%/a b.avif".

(** No percent sign in [s]. *)
Fixpoint percentFree (s : string) : bool :=
  match s with
  | EmptyString => true
  | String c rest => negb (Ascii.eqb c percent) && percentFree rest
  end.

(** The same host with another random draw. *)
Definition withRandomText (env : Env) (rendered : string) : Env := {|
  appVersion := appVersion env;
  clipboardRead := clipboardRead env;
  getName := getName env;
  getBasePath := getBasePath env;
  attachmentFolderPath := attachmentFolderPath env;
  getActiveFile := getActiveFile env;
  cwd := cwd env;
  today := today env;
  randomText := rendered;
  settings := settings env
|}.

(** A document whose two lines, read together, hold a two-line target. *)
Definition twoLineNote : TextEditor :=
  {| text := "first" ++ String nl "second";
     selFrom := 0;
     selTo := 0 |}.

(* ===================================================================== *)
(** ** Settings: [loadSettings], [saveSettings] and the settings tab *)
(* ===================================================================== *)

Module Settings.

(** A JavaScript object with string values: its own properties, in the
    order they were added. *)
Definition JsObject : Type := list (string * string).

(** [o[key]], [None] for [undefined]. *)
Fixpoint getProp (o : JsObject) (key : string) : option string :=
  match o with
  | [] => None
  | (k, v) :: rest => if String.eqb k key then Some v else getProp rest key
  end.

(** [o[key] = value]: an own property keeps its place, a new one goes
    last. *)
Fixpoint setProp (o : JsObject) (key value : string) : JsObject :=
  match o with
  | [] => [(key, value)]
  | (k, v) :: rest =>
      if String.eqb k key then (k, value) :: rest
      else (k, v) :: setProp rest key value
  end.

(** One source of [Object.assign]: its properties are set on the target
    in their order. *)
Definition assignFrom (target source : JsObject) : JsObject :=
  fold_left (fun t kv => setProp t (fst kv) (snd kv)) source target.

(** [Object.assign(target, ...sources)]; a source that is [null] is
    skipped. *)
Definition assign (target : JsObject) (sources : list (option JsObject)) : JsObject :=
  fold_left (fun t source =>
               match source with
               | Some s => assignFrom t s
               | None => t
               end) sources target.

(** [DEFAULT_SETTINGS], as the object it is. *)
Definition defaultSettings : JsObject := [("avifPath", avifPath DEFAULT_SETTINGS)].

(** The plugin's [settings] and what the host keeps for it ([data.json],
    [None] while nothing was saved). *)
Record PluginState : Type := {
  pluginSettings : JsObject;
  stored : option JsObject
}.

(** [loadSettings()] *)
Definition loadSettings (st : PluginState) : PluginState :=
  {| pluginSettings := assign [] [Some defaultSettings; stored st];
     stored := stored st |}.

(** [saveSettings()] *)
Definition saveSettings (st : PluginState) : PluginState :=
  {| pluginSettings := pluginSettings st;
     stored := Some (pluginSettings st) |}.

(** The [onChange] callback of the settings tab (its console message
    left aside): the value goes to [settings.mySetting] and the settings
    are saved. *)
Definition onChange (value : string) (st : PluginState) : PluginState :=
  saveSettings {| pluginSettings := setProp (pluginSettings st) "mySetting" value;
                  stored := stored st |}.

(** No key twice. *)
Definition isObject (o : JsObject) : Prop := NoDup (map fst o).

End Settings.

(** A plugin that was never configured, and one whose user set the
    encoder's path. *)
Definition freshPlugin : Settings.PluginState :=
  {| Settings.pluginSettings := []; Settings.stored := None |}.

Definition configuredPlugin : Settings.PluginState :=
  {| Settings.pluginSettings := [];
     Settings.stored := Some [("mySetting", "s3cret"); ("avifPath", "/opt/homebrew/bin/avif")] |}.

(** A decimal digit. *)
Definition isDigit (c : ascii) : bool :=
  let n := nat_of_ascii c in ((48 <=? n) && (n <=? 57))%nat.

(** The digit [n] as the Arabic locale of moment writes it: the bytes of
    U+0660 and the nine characters after it. *)
Definition arabicDigit (n : nat) : string := Uri.byte 217 ++ Uri.byte (160 + n).

(** The [postformat] of moment's locale [ar]: every digit is written in
    the locale's own, every comma as the Arabic comma. *)
Fixpoint arabicPostformat (output : string) : string :=
  match output with
  | EmptyString => EmptyString
  | String c rest =>
      (if isDigit c then arabicDigit (nat_of_ascii c - 48)
       else if Ascii.eqb c ","%char then Uri.byte 216 ++ Uri.byte 140
       else String c EmptyString) ++ arabicPostformat rest
  end.

(** An upper-case hexadecimal digit. *)
Definition isUpperHex (c : ascii) : bool := Uri.inSet c "0123456789ABCDEF".

(** [s] is written in the form of an encoded URI: every character either
    needs no escape, or is a percent sign followed by two upper-case
    hexadecimal digits. *)
Fixpoint escapesOK (s : string) : bool :=
  match s with
  | EmptyString => true
  | String c rest =>
      if Ascii.eqb c percent then
        match rest with
        | String h (String l rest') => isUpperHex h && isUpperHex l && escapesOK rest'
        | _ => false
        end
      else Uri.unescaped c && escapesOK rest
  end.

(** How many characters of [s] need an escape. *)
Fixpoint escapedCount (s : string) : nat :=
  match s with
  | EmptyString => 0
  | String c rest => (if Uri.unescaped c then 0 else 1) + escapedCount rest
  end.

(** The byte a token of an encoded text stands for. *)
Definition tokByte (t : Uri.UriTok) : nat :=
  match t with
  | Uri.Lit c => nat_of_ascii c
  | Uri.Esc _ _ b => b
  end.

(** The folder that holds the active document: the root path followed by
    the document's folder path in the vault, as one absolute, normalized
    path. *)
Definition documentFolder (env : Env) (activeFile : TFile) : string :=
  NodePath.resolve (cwd env) [getBasePath env ++ "/" ++ parentPath activeFile].

(** A vault in a folder with a space in its name, attachments in a
    subfolder beside the note. *)
Definition besideNoteEnv : Env := {|
  appVersion := appVersion macEnv;
  clipboardRead := clipboardRead macEnv;
  getName := "vault";
  getBasePath := "/Users/me/My Vault";
  attachmentFolderPath := "./assets";
  getActiveFile := Some {| parentPath := "notes/2024" |};
  cwd := "/";
  today := today macEnv;
  randomText := "1.9zk3x8d2lq";
  settings := DEFAULT_SETTINGS
|}.

(* ===================================================================== *)
(** ** The library models on their documented examples *)
(* ===================================================================== *)

(** The documented examples of Node's [path]. *)
Example join_doc :
  NodePath.join ["/foo"; "bar"; "baz/asdf"; "quux"; ".."] = "/foo/bar/baz/asdf".
Proof. reflexivity. Qed.

Example resolve_doc_relative :
  NodePath.resolve "/home/me" ["/foo/bar"; "./baz"] = "/foo/bar/baz".
Proof. reflexivity. Qed.

Example resolve_doc_absolute :
  NodePath.resolve "/home/me" ["/foo/bar"; "/tmp/file/"] = "/tmp/file".
Proof. reflexivity. Qed.

Example resolve_doc_cwd :
  NodePath.resolve "/home/myself/node"
    ["wwwroot"; "static_files/png/"; "../gif/image.gif"]
  = "/home/myself/node/wwwroot/static_files/gif/image.gif".
Proof. reflexivity. Qed.

Example normalize_doc :
  NodePath.normalize "/foo/bar//baz/asdf/quux/.." = "/foo/bar/baz/asdf".
Proof. reflexivity. Qed.

Example extname_doc :
  map NodePath.extname
      ["index.html"; "index.coffee.md"; "index."; "index"; ".index"; ".index.md";
       "/a/b.d/c"; ".."; "a/b.PNG/"]
  = [".html"; ".md"; "."; EmptyString; EmptyString; ".md";
     EmptyString; EmptyString; ".PNG"].
Proof. reflexivity. Qed.

Example encodeURI_space :
  Uri.encodeURI "/Users/me/My Vault/a#b.avif" = "/Users/me/My%20Vault/a#b.avif".
Proof. reflexivity. Qed.

Example decodeURI_cases :
  map Uri.decodeURI ["/v/My%20Notes"; "/v/a%2Fb"; "/v/100%"; "/v/%E4%BD%A0"; "/v/%C0%80"]
  = [Ok "/v/My Notes"; Ok "/v/a%2Fb"; Throw Uri.malformed;
     Ok ("/v/" ++ Uri.byte 228 ++ Uri.byte 189 ++ Uri.byte 160); Throw Uri.malformed].
Proof. reflexivity. Qed.

(* ===================================================================== *)
(** ** Facts about strings *)
(* ===================================================================== *)

Module StringFacts.

Lemma app_nil_r (s : string) : s ++ EmptyString = s.
Proof. induction s as [|c s IH]; simpl; [reflexivity | now rewrite IH]. Qed.

Lemma app_assoc (a b c : string) : (a ++ b) ++ c = a ++ b ++ c.
Proof. induction a as [|x a IH]; simpl; [reflexivity | now rewrite IH]. Qed.

Lemma length_app (a b : string) : length (a ++ b) = length a + length b.
Proof. induction a as [|x a IH]; simpl; [reflexivity | now rewrite IH]. Qed.

Lemma take_app (a b : string) : take (length a) (a ++ b) = a.
Proof. induction a as [|x a IH]; simpl; [now destruct b | now rewrite IH]. Qed.

Lemma drop_app (a b : string) (n : nat) : drop (length a + n) (a ++ b) = drop n b.
Proof. induction a as [|x a IH]; simpl; [reflexivity | exact IH]. Qed.

Lemma drop_app0 (a b : string) : drop (length a) (a ++ b) = b.
Proof.
  rewrite <- (Nat.add_0_r (length a)), drop_app. now destruct b.
Qed.

Lemma take_drop (n : nat) (s : string) : take n s ++ drop n s = s.
Proof.
  revert s; induction n as [|n IH]; intros [|c s]; simpl; try reflexivity.
  now rewrite IH.
Qed.

Lemma startsWith_app (p post : string) : startsWith (p ++ post) p = true.
Proof.
  induction p as [|c p IH]; simpl; [reflexivity|].
  now rewrite Ascii.eqb_refl, IH.
Qed.

Lemma startsWith_inv (s p : string) :
  startsWith s p = true -> exists post, s = p ++ post.
Proof.
  revert s; induction p as [|c p IH]; intros s Hs; simpl in *.
  - now exists s.
  - destruct s as [|d s]; [discriminate|].
    apply andb_true_iff in Hs as [Hc Hp].
    apply Ascii.eqb_eq in Hc; subst d.
    destruct (IH _ Hp) as [post ->]. now exists post.
Qed.

(** [find] answers with an occurrence. *)
Lemma find_Some (s t : string) (n : nat) :
  find s t = Some n ->
  exists pre post, s = pre ++ t ++ post /\ length pre = n.
Proof.
  revert n; induction s as [|c s IH]; intros n Hf; simpl in Hf.
  - destruct (startsWith EmptyString t) eqn:Hp; [|discriminate].
    injection Hf as <-. apply startsWith_inv in Hp as [post Hp].
    now exists EmptyString, post.
  - destruct (startsWith (String c s) t) eqn:Hp.
    + injection Hf as <-. apply startsWith_inv in Hp as [post Hp].
      now exists EmptyString, post.
    + destruct (find s t) as [m|] eqn:Hm; [|discriminate].
      injection Hf as <-.
      destruct (IH m eq_refl) as (pre & post & -> & Hl).
      exists (String c pre), post. simpl. now rewrite Hl.
Qed.

(** No occurrence starts before the one [find] answers with, and [find]
    answers whenever there is one. *)
Lemma find_least (s t pre post : string) :
  s = pre ++ t ++ post ->
  exists n, find s t = Some n /\ n <= length pre.
Proof.
  revert s; induction pre as [|c pre IH]; intros s ->; simpl.
  - exists 0. split; [|lia].
    destruct (t ++ post) eqn:Ht; simpl; rewrite <- Ht, startsWith_app;
      reflexivity.
  - destruct (IH _ eq_refl) as (n & Hn & Hle).
    destruct (startsWith (String c (pre ++ t ++ post)) t) eqn:Hp.
    + exists 0. split; [reflexivity | lia].
    + exists (S n). rewrite Hn. split; [reflexivity | lia].
Qed.

Lemma find_None (s t : string) : find s t = None -> ~ Occurs t s.
Proof.
  intros Hf (pre & post & Hs).
  destruct (find_least _ _ _ _ Hs) as (n & Hn & _). congruence.
Qed.

Lemma not_Occurs_find (s t : string) : ~ Occurs t s -> find s t = None.
Proof.
  intros Hno. destruct (find s t) as [n|] eqn:Hf; [|reflexivity].
  destruct (find_Some _ _ _ Hf) as (pre & post & Hs & _).
  exfalso. apply Hno. now exists pre, post.
Qed.

Lemma find_fits (s t : string) (n : nat) :
  find s t = Some n -> n + length t <= length s.
Proof.
  intros Hf. destruct (find_Some _ _ _ Hf) as (pre & post & -> & <-).
  rewrite !length_app. lia.
Qed.

Lemma indexOf_found (s t : string) :
  (indexOf s t =? -1)%Z = false <-> Occurs t s.
Proof.
  unfold indexOf. split.
  - destruct (find s t) as [n|] eqn:Hf.
    + intros _. destruct (find_Some _ _ _ Hf) as (pre & post & Hs & _).
      now exists pre, post.
    + discriminate.
  - intros (pre & post & Hs).
    destruct (find_least _ _ _ _ Hs) as (n & -> & _).
    apply Z.eqb_neq. lia.
Qed.

(** Lines. *)
Lemma split_cons (sep : ascii) (s : string) :
  exists l ls, split sep s = l :: ls.
Proof.
  destruct s as [|c s]; simpl; [now eexists; eexists|].
  destruct (Ascii.eqb c sep); [now eexists; eexists|].
  destruct (split sep s); now eexists; eexists.
Qed.

Lemma split_join (s : string) : join nl (split nl s) = s.
Proof.
  induction s as [|c s IH]; simpl; [reflexivity|].
  destruct (split_cons nl s) as (l & ls & Hs). rewrite Hs in *.
  destruct (Ascii.eqb c nl) eqn:Hc.
  - apply Ascii.eqb_eq in Hc; subst c.
    change (join nl (EmptyString :: l :: ls)) with (String nl (join nl (l :: ls))).
    now rewrite IH.
  - destruct ls; simpl in *; now rewrite <- IH.
Qed.

Lemma split_nlfree (s : string) : Forall (fun l => nlfree l = true) (split nl s).
Proof.
  induction s as [|c s IH]; simpl.
  - now constructor.
  - destruct (Ascii.eqb c nl) eqn:Hc.
    + now constructor.
    + destruct (split nl s) as [|l ls].
      * constructor; [|constructor]. simpl. now rewrite Hc.
      * inversion IH; subst. constructor; [|assumption].
        simpl. now rewrite Hc.
Qed.

Lemma nlfree_app (a b : string) :
  nlfree (a ++ b) = nlfree a && nlfree b.
Proof.
  induction a as [|c a IH]; simpl; [reflexivity|].
  now rewrite IH, andb_assoc.
Qed.

Lemma nlfree_Occurs (t l : string) :
  Occurs t l -> nlfree l = true -> nlfree t = true.
Proof.
  intros (pre & post & ->). rewrite !nlfree_app.
  intros Hl. apply andb_true_iff in Hl as [_ Hl].
  now apply andb_true_iff in Hl as [Hl _].
Qed.

Lemma In_Occurs_join (l : string) (ls : list string) :
  In l ls -> Occurs l (join nl ls).
Proof.
  induction ls as [|x ls IH]; [contradiction|].
  intros [-> | Hin].
  - destruct ls as [|y ls]; simpl.
    + exists EmptyString, EmptyString. now rewrite app_nil_r.
    + now exists EmptyString, (String nl (join nl (y :: ls))).
  - destruct (IH Hin) as (pre & post & Hj).
    destruct ls as [|y ls]; [contradiction|].
    exists (x ++ String nl pre), post.
    change (join nl (x :: y :: ls)) with (x ++ String nl (join nl (y :: ls))).
    rewrite Hj, app_assoc. reflexivity.
Qed.

Lemma Occurs_trans (a b c : string) : Occurs a b -> Occurs b c -> Occurs a c.
Proof.
  intros (p1 & q1 & ->) (p2 & q2 & ->).
  exists (p2 ++ p1), (q1 ++ q2). now rewrite !app_assoc.
Qed.

End StringFacts.

(* ===================================================================== *)
(** ** The line scan of [replaceFirstOccurrence] against the whole text *)
(* ===================================================================== *)

Module LineScan.
Import StringFacts.

(** The first line that holds [target], counted from the head of [lines],
    and where [target] starts in it. *)
Fixpoint firstHit (target : string) (lines : list string) : option (nat * nat) :=
  match lines with
  | [] => None
  | l :: rest =>
      match find l target with
      | Some c => Some (0, c)
      | None => option_map (fun kc => (S (fst kc), snd kc)) (firstHit target rest)
      end
  end.

Definition hitOffset (lines : list string) (kc : nat * nat) : nat :=
  lineStart lines (fst kc) + snd kc.

Lemma startsWith_app_nl (x s t : string) :
  nlfree t = true -> startsWith (x ++ String nl s) t = startsWith x t.
Proof.
  revert x; induction t as [|c t IH]; intros x Ht; [reflexivity|].
  simpl in Ht. apply andb_true_iff in Ht as [Hc Ht].
  destruct x as [|d x]; cbn [append startsWith].
  - rewrite Ascii.eqb_sym. now apply negb_true_iff in Hc as ->.
  - now rewrite IH.
Qed.

Lemma find_app_nl (l s t : string) :
  nlfree t = true ->
  find (l ++ String nl s) t =
  match find l t with
  | Some c => Some c
  | None => option_map (fun n => length l + 1 + n) (find s t)
  end.
Proof.
  intros Ht. induction l as [|d l IH].
  - change (EmptyString ++ String nl s) with (String nl s).
    cbn [find]. rewrite <- (startsWith_app_nl EmptyString s t Ht).
    change (EmptyString ++ String nl s) with (String nl s).
    destruct (startsWith (String nl s) t); [reflexivity|].
    destruct (find s t); reflexivity.
  - change (String d l ++ String nl s) with (String d (l ++ String nl s)).
    cbn [find].
    change (String d (l ++ String nl s)) with (String d l ++ String nl s).
    rewrite (startsWith_app_nl (String d l) s t Ht).
    destruct (startsWith (String d l) t); [reflexivity|].
    rewrite IH. destruct (find l t); [reflexivity|].
    destruct (find s t); reflexivity.
Qed.

(** On a text whose lines are [lines], a target with no line break is
    found by [find] exactly where the line scan finds it. *)
Lemma find_join (t l : string) (rest : list string) :
  nlfree t = true ->
  find (join nl (l :: rest)) t
  = option_map (hitOffset (l :: rest)) (firstHit t (l :: rest)).
Proof.
  intros Ht. revert l; induction rest as [|r rest IH]; intros l.
  - cbn [join firstHit]. destruct (find l t); reflexivity.
  - change (join nl (l :: r :: rest)) with (l ++ String nl (join nl (r :: rest))).
    rewrite (find_app_nl _ _ _ Ht), IH.
    cbn [firstHit]. destruct (find l t) as [c|]; [reflexivity|].
    destruct (find r t) as [c|]; [unfold hitOffset; cbn; f_equal; lia|].
    destruct (firstHit t rest) as [[k c]|]; [|reflexivity].
    unfold hitOffset; cbn. f_equal. lia.
Qed.

Lemma firstHit_line (t : string) (lines : list string) (k c : nat) :
  firstHit t lines = Some (k, c) ->
  exists l, nth_error lines k = Some l /\ find l t = Some c.
Proof.
  revert k; induction lines as [|l rest IH]; intros k Hh; [discriminate|].
  cbn [firstHit] in Hh. destruct (find l t) as [c'|] eqn:Hl.
  - injection Hh as <- <-. now exists l.
  - destruct (firstHit t rest) as [[k' c']|]; [|discriminate].
    injection Hh as <- <-. exact (IH k' eq_refl).
Qed.

Lemma firstHit_None (t : string) (lines : list string) :
  firstHit t lines = None -> forall l, In l lines -> find l t = None.
Proof.
  induction lines as [|x rest IH]; intros Hh l Hin; [contradiction|].
  cbn [firstHit] in Hh. destruct (find x t) eqn:Hx; [discriminate|].
  destruct Hin as [<- | Hin]; [assumption|].
  apply IH; [|assumption]. now destruct (firstHit t rest).
Qed.

Section Scan.

Context {E : Type} `{Editor E}.

(** The loop, by what the scan finds. *)
Lemma replaceFirstOccurrenceFrom_firstHit
  (e : E) (target replacement : string) (lines : list string) (i : Z) :
  replaceFirstOccurrenceFrom e target replacement lines i =
  match firstHit target lines with
  | Some (k, c) =>
      replaceRange replacement
        {| line := (i + Z.of_nat k)%Z; ch := Z.of_nat c |}
        {| line := (i + Z.of_nat k)%Z; ch := (Z.of_nat c + Z.of_nat (length target))%Z |}
        e
  | None => e
  end.
Proof.
  revert i; induction lines as [|l rest IH]; intros i; [reflexivity|].
  cbn [replaceFirstOccurrenceFrom firstHit]. unfold indexOf.
  destruct (find l target) as [c|] eqn:Hl.
  - replace (Z.of_nat c =? -1)%Z with false by (symmetry; apply Z.eqb_neq; lia).
    cbn [negb]. now rewrite Z.add_0_r.
  - cbn [negb Z.eqb]. rewrite IH.
    destruct (firstHit target rest) as [[k c]|]; [|reflexivity].
    cbn [option_map fst snd].
    now replace (i + 1 + Z.of_nat k)%Z with (i + Z.of_nat (S k))%Z by lia.
Qed.

End Scan.

(** The offset of a position inside a line. *)
Lemma posToOffset_inside (doc l : string) (k c : nat) :
  nth_error (split nl doc) k = Some l ->
  c <= length l ->
  posToOffset doc {| line := Z.of_nat k; ch := Z.of_nat c |}
  = lineStart (split nl doc) k + c.
Proof.
  intros Hk Hc. unfold posToOffset. cbn [line ch].
  replace (Z.of_nat k <? 0)%Z with false by (symmetry; apply Z.ltb_ge; lia).
  rewrite Nat2Z.id, Hk. f_equal. lia.
Qed.

End LineScan.

(* ===================================================================== *)
(** ** Document Mutator: the placeholder replacement *)
(* ===================================================================== *)

Section MutatorTheorems.

Context {E : Type} `{Editor E}.
Import StringFacts LineScan.

(** What the scan finds on the lines of a text is what [find] finds in
    the text, when some line holds the target. *)
Lemma scan_finds (doc target l : string) :
  In l (split nl doc) -> Occurs target l ->
  exists k c lk,
    firstHit target (split nl doc) = Some (k, c)
    /\ nth_error (split nl doc) k = Some lk
    /\ c + length target <= length lk
    /\ find doc target = Some (lineStart (split nl doc) k + c).
Proof.
  intros Hin Hocc.
  assert (Hl : nlfree l = true)
    by (exact (proj1 (Forall_forall _ _) (split_nlfree doc) l Hin)).
  pose proof (nlfree_Occurs _ _ Hocc Hl) as Ht.
  destruct (firstHit target (split nl doc)) as [[k c]|] eqn:Hh.
  - destruct (firstHit_line _ _ _ _ Hh) as (lk & Hk & Hc).
    exists k, c, lk. repeat split; try assumption.
    + now apply find_fits.
    + destruct (split_cons nl doc) as (l0 & ls & Hs).
      rewrite <- (split_join doc) at 1. rewrite Hs in *.
      now rewrite (find_join _ _ _ Ht), Hh.
  - exfalso. apply (find_None l target); [|assumption].
    exact (firstHit_None _ _ Hh l Hin).
Qed.

(** C6. When some line of the document holds the placeholder token (on
    one line or on several), [replaceFirstOccurrence] rewrites the span of
    the first occurrence of the token in the document, the topmost line
    and the leftmost place in it, and nothing else: the text before that
    span and the text after it are kept as they were. *)
Theorem replaceFirstOccurrence_first_span
  (e : E) (target replacement : string) :
  (exists l, In l (split nl (getValue e)) /\ Occurs target l) ->
  exists pre post,
    getValue e = pre ++ target ++ post
    /\ (forall pre' post',
          getValue e = pre' ++ target ++ post' -> length pre <= length pre')
    /\ getValue (replaceFirstOccurrence e target replacement)
       = pre ++ replacement ++ post.
Proof.
  intros (l & Hin & Hocc).
  destruct (scan_finds _ _ _ Hin Hocc) as (k & c & lk & Hh & Hk & Hfit & Hf).
  destruct (find_Some _ _ _ Hf) as (pre & post & Hdoc & Hlen).
  exists pre, post. split; [assumption|]. split.
  - intros pre' post' Hdoc'.
    destruct (find_least _ _ _ _ Hdoc') as (n & Hn & Hle).
    rewrite Hf in Hn. injection Hn as <-. lia.
  - unfold replaceFirstOccurrence.
    rewrite replaceFirstOccurrenceFrom_firstHit, Hh, getValue_replaceRange.
    rewrite Z.add_0_l, <- Nat2Z.inj_add.
    rewrite (posToOffset_inside _ lk k c Hk) by lia.
    rewrite (posToOffset_inside _ lk k (c + length target) Hk) by lia.
    unfold splice. rewrite Nat.add_assoc, <- Hlen, Hdoc.
    now rewrite take_app, drop_app, drop_app0.
Qed.

(** C7. When the placeholder token does not occur in the document,
    [replaceFirstOccurrence] leaves the editor as it was; the function is
    total, so nothing is raised to the caller. *)
Theorem replaceFirstOccurrence_absent_noop
  (e : E) (target replacement : string) :
  ~ Occurs target (getValue e) ->
  replaceFirstOccurrence e target replacement = e.
Proof.
  intros Hno. unfold replaceFirstOccurrence.
  rewrite replaceFirstOccurrenceFrom_firstHit.
  destruct (firstHit target (split nl (getValue e))) as [[k c]|] eqn:Hh;
    [|reflexivity].
  exfalso. apply Hno.
  destruct (firstHit_line _ _ _ _ Hh) as (lk & Hk & Hc).
  apply (Occurs_trans _ lk).
  - destruct (find_Some _ _ _ Hc) as (pre & post & -> & _). now exists pre, post.
  - rewrite <- (split_join (getValue e)).
    apply In_Occurs_join. eapply nth_error_In; eassumption.
Qed.

End MutatorTheorems.

Example twoPlaceholders_embedded :
  text (embedMarkDownImage twoPlaceholders "abc" "file:///v/x.avif")
  = "intro" ++ String nl ("a ![](file:///v/x.avif) b"
     ++ String nl "![Uploading file...abc]() c").
Proof. vm_compute. reflexivity. Qed.

Lemma replaceFirstOccurrence_first_span_witness :
  exists pre post,
    getValue twoPlaceholders = pre ++ progressTextFor "abc" ++ post
    /\ (forall pre' post',
          getValue twoPlaceholders = pre' ++ progressTextFor "abc" ++ post' ->
          length pre <= length pre')
    /\ getValue (replaceFirstOccurrence twoPlaceholders (progressTextFor "abc")
                   "![](file:///v/x.avif)")
       = pre ++ "![](file:///v/x.avif)" ++ post.
Proof.
  apply (replaceFirstOccurrence_first_span twoPlaceholders
           (progressTextFor "abc") "![](file:///v/x.avif)").
  exists "a ![Uploading file...abc]() b". split.
  - vm_compute. right. left. reflexivity.
  - exists "a ", " b". vm_compute. reflexivity.
Defined.

Lemma replaceFirstOccurrence_absent_noop_witness :
  replaceFirstOccurrence noPlaceholder (progressTextFor "abc")
    "![](file:///v/x.avif)" = noPlaceholder.
Proof.
  apply (replaceFirstOccurrence_absent_noop noPlaceholder
           (progressTextFor "abc") "![](file:///v/x.avif)").
  apply StringFacts.find_None. vm_compute. reflexivity.
Defined.

(* ===================================================================== *)
(** ** Platform detection *)
(* ===================================================================== *)

Lemma indexOf_absent (s t : string) :
  (indexOf s t =? -1)%Z = true <-> ~ Occurs t s.
Proof.
  pose proof (StringFacts.indexOf_found s t) as Hf.
  destruct (indexOf s t =? -1)%Z; split; intros Hx.
  - intros Ho. apply Hf in Ho. discriminate.
  - reflexivity.
  - discriminate.
  - exfalso. apply Hx, Hf. reflexivity.
Qed.

(** C10. [getOS] answers with one of the four names [Windows], [MacOS],
    [Linux] and [Unknown OS], and it looks for [Win], then [Mac], then
    [X11]: an [appVersion] that holds [Win] is [Windows], whatever else
    it holds, so one that holds both [Win] and [Mac] is [Windows]; [Mac]
    counts only without [Win], [X11] only without both, and [Unknown OS]
    is what is left. *)
Theorem getOS_order (env : Env) :
  In (getOS env) ["Windows"; "MacOS"; "Linux"; "Unknown OS"]
  /\ (Occurs "Win" (appVersion env) -> getOS env = "Windows")
  /\ (Occurs "Win" (appVersion env) -> Occurs "Mac" (appVersion env) ->
      getOS env = "Windows")
  /\ (~ Occurs "Win" (appVersion env) -> Occurs "Mac" (appVersion env) ->
      getOS env = "MacOS")
  /\ (~ Occurs "Win" (appVersion env) -> ~ Occurs "Mac" (appVersion env) ->
      Occurs "X11" (appVersion env) -> getOS env = "Linux")
  /\ (~ Occurs "Win" (appVersion env) -> ~ Occurs "Mac" (appVersion env) ->
      ~ Occurs "X11" (appVersion env) -> getOS env = "Unknown OS").
Proof.
  unfold getOS.
  destruct (indexOf (appVersion env) "Win" =? -1)%Z eqn:HW;
  destruct (indexOf (appVersion env) "Mac" =? -1)%Z eqn:HM;
  destruct (indexOf (appVersion env) "X11" =? -1)%Z eqn:HX; cbn [negb];
  repeat match goal with
         | Hb : (indexOf _ _ =? -1)%Z = true |- _ => apply indexOf_absent in Hb
         | Hb : (indexOf _ _ =? -1)%Z = false |- _ =>
             apply StringFacts.indexOf_found in Hb
         end;
  (split; [simpl; tauto|]);
  repeat split; intros; try reflexivity; contradiction.
Qed.

Lemma getOS_order_witness :
  getOS bothEnv = "Windows" /\ getOS winEnv = "Windows".
Proof.
  split.
  - apply (proj1 (proj2 (proj2 (getOS_order bothEnv)))).
    + exists "5.0 (Macintosh; like ", "dows NT)". vm_compute. reflexivity.
    + exists "5.0 (", "intosh; like Windows NT)". vm_compute. reflexivity.
  - apply (proj1 (proj2 (getOS_order winEnv))).
    exists "5.0 (", "dows NT 10.0; Win64; x64) AppleWebKit/537.36".
    vm_compute. reflexivity.
Defined.

(* ===================================================================== *)
(** ** Clipboard Classifier and paste handler *)
(* ===================================================================== *)

Lemma spawned_app (a b : list Event) : spawned (a ++ b) = (spawned a ++ spawned b)%list.
Proof.
  induction a as [|ev a IH]; [reflexivity|].
  destruct ev; cbn [app spawned]; now rewrite IH.
Qed.

(** Where the handler's condition has a value, it is the disjunction. *)
Lemma isImagePaste_or (env : Env) (evt : ClipboardEvent) :
  fileUrlIsImage env || fileListNonEmpty evt = true ->
  isImagePaste env evt = Ok (classifierSpec env evt).
Proof.
  unfold classifierSpec, fileUrlIsImage, fileListNonEmpty, isImagePaste.
  intros Hab. rewrite Hab. cbn [orb].
  destruct (isCopyImageFile env); [reflexivity|].
  cbn [orb] in Hab. now rewrite Hab.
Qed.

Section HandlerTheorems.

Context {E : Type} `{Editor E}.

(** C4. On a platform that [getOS] does not name [MacOS], the paste
    handler only writes its console message and returns: the document is
    as it was, no process is started, nothing is raised. *)
Theorem pasteHandler_declines_off_macos
  (env : Env) (evt : ClipboardEvent) (outcome : string -> option ExecResult)
  (w : World) :
  getOS env <> "MacOS" ->
  editor (run outcome (pasteHandler env evt) w) = editor w
  /\ spawned (events (run outcome (pasteHandler env evt) w)) = spawned (events w)
  /\ uncaught (run outcome (pasteHandler env evt) w) = uncaught w
  /\ events (run outcome (pasteHandler env evt) w)
     = (events w ++ [ConsoleLog ["not macos, pic won't be processed"]])%list.
Proof.
  intros Hos. unfold pasteHandler.
  apply String.eqb_neq in Hos. rewrite Hos. cbn [negb run emit editor events uncaught].
  rewrite spawned_app. cbn [spawned]. rewrite List.app_nil_r.
  repeat split; reflexivity.
Qed.

(** C1 (what the code does). On MacOS, with an empty file list and no
    image file URL on the clipboard, the handler's condition reads
    [files[0].type] of a list without entries: it raises [TypeError]
    instead of answering false, and the handler ends with that error
    uncaught. *)
Theorem isImagePaste_empty_files_raises
  (env : Env) (evt : ClipboardEvent) (outcome : string -> option ExecResult)
  (w : World) :
  getOS env = "MacOS" ->
  isCopyImageFile env = false ->
  files evt = [] ->
  isImagePaste env evt
  = Throw (TypeError "Cannot read properties of undefined (reading 'type')")
  /\ run outcome (pasteHandler env evt) w
     = raise (TypeError "Cannot read properties of undefined (reading 'type')") w.
Proof.
  intros Hos Ha Hf.
  assert (Hc : isImagePaste env evt
               = Throw (TypeError "Cannot read properties of undefined (reading 'type')")).
  { unfold isImagePaste. rewrite Ha, Hf. reflexivity. }
  split; [exact Hc|].
  unfold pasteHandler. rewrite Hos, Hc. reflexivity.
Qed.

(** What a run of [getAvifPasteFile] is, by how the dump ends. *)
Lemma run_getAvifPasteFile
  (env : Env) (next : string -> Prog) (outcome : string -> option ExecResult)
  (w : World) (dir : string) :
  getFileAssetPath env = Ok dir ->
  run outcome (getAvifPasteFile env next) w =
  let full := dir ++ "/" ++ avifName env in
  let w1 :=
    emit (Spawn (dumpCommand env))
      (emit (ConsoleDebug ["full avif exec path:"; avifPath (settings env)])
      (emit (ConsoleDebug ["full avifpath:"; full])
      (emit (ConsoleDebug ["avifpath:"; avifName env])
      (emit (ConsoleDebug ["pngpath:"; pngPath env]) w)))) in
  let w2 := run outcome (next full) w1 in
  match outcome (dumpCommand env) with
  | None => w2
  | Some r1 =>
      let w3 := emit (Spawn (encodeCommand env full)) (emit (ConsoleExec r1) w2) in
      match outcome (encodeCommand env full) with
      | None => w3
      | Some r2 =>
          edit (fun editor => insertTemporaryText editor full)
               (emit (ConsoleExec r2) w3)
      end
  end.
Proof.
  intros Hdir. unfold getAvifPasteFile, execute. rewrite Hdir.
  cbn [run]. destruct (outcome (dumpCommand env)) as [r1|]; [|reflexivity].
  cbn [run]. destruct (outcome (encodeCommand env _)) as [r2|]; reflexivity.
Qed.

(** C2 (as the code has it). Once the dump has ended, with whatever exit
    status or error, its callback starts the encoder: the encode command
    is among the processes started. The callback does not read the error
    it is handed. *)
Theorem encode_spawned_whatever_dump_status
  (env : Env) (next : string -> Prog) (outcome : string -> option ExecResult)
  (w : World) (dir : string) (r1 : ExecResult) :
  getFileAssetPath env = Ok dir ->
  outcome (dumpCommand env) = Some r1 ->
  In (encodeCommand env (dir ++ "/" ++ avifName env))
     (spawned (events (run outcome (getAvifPasteFile env next) w))).
Proof.
  intros Hdir Hr1. rewrite (run_getAvifPasteFile _ _ _ _ _ Hdir), Hr1.
  cbv zeta.
  destruct (outcome (encodeCommand env _)) as [r2|];
    cbn [edit emit events]; rewrite !spawned_app; cbn [spawned];
    repeat (apply in_or_app; first [ right; left; reflexivity | left ]).
Qed.

End HandlerTheorems.

Lemma pasteHandler_declines_off_macos_witness :
  editor (run allSucceed (pasteHandler winEnv oneImage) emptyWorld) = editor emptyWorld
  /\ spawned (events (run allSucceed (pasteHandler winEnv oneImage) emptyWorld))
     = spawned (events emptyWorld)
  /\ uncaught (run allSucceed (pasteHandler winEnv oneImage) emptyWorld)
     = uncaught emptyWorld
  /\ events (run allSucceed (pasteHandler winEnv oneImage) emptyWorld)
     = (events emptyWorld ++ [ConsoleLog ["not macos, pic won't be processed"]])%list.
Proof.
  apply (pasteHandler_declines_off_macos winEnv oneImage allSucceed emptyWorld).
  apply String.eqb_neq. vm_compute. reflexivity.
Defined.

Lemma isImagePaste_empty_files_raises_witness :
  isImagePaste macEnv noFiles
  = Throw (TypeError "Cannot read properties of undefined (reading 'type')")
  /\ run allSucceed (pasteHandler macEnv noFiles) emptyWorld
     = raise (TypeError "Cannot read properties of undefined (reading 'type')")
             emptyWorld.
Proof.
  apply (isImagePaste_empty_files_raises macEnv noFiles allSucceed emptyWorld).
  - vm_compute. reflexivity.
  - vm_compute. reflexivity.
  - reflexivity.
Defined.

(** C3 (what the code does). With a text file's URL on the clipboard and
    an empty file list, none of the three conditions holds, so their
    disjunction is false; the handler's condition has no value there, it
    raises [TypeError]. *)
Theorem classifier_or_diverges_on_empty_files :
  classifierSpec
    {| appVersion := appVersion macEnv;
       clipboardRead := fun _ => "file:///Users/me/notes.txt";
       getName := getName macEnv;
       getBasePath := getBasePath macEnv;
       attachmentFolderPath := attachmentFolderPath macEnv;
       getActiveFile := getActiveFile macEnv;
       cwd := cwd macEnv;
       today := today macEnv;
       randomText := randomText macEnv;
       settings := settings macEnv |} noFiles = false
  /\ isImagePaste
       {| appVersion := appVersion macEnv;
          clipboardRead := fun _ => "file:///Users/me/notes.txt";
          getName := getName macEnv;
          getBasePath := getBasePath macEnv;
          attachmentFolderPath := attachmentFolderPath macEnv;
          getActiveFile := getActiveFile macEnv;
          cwd := cwd macEnv;
          today := today macEnv;
          randomText := randomText macEnv;
          settings := settings macEnv |} noFiles
     = Throw (TypeError "Cannot read properties of undefined (reading 'type')").
Proof. split; vm_compute; reflexivity. Qed.

(** C2, refuted as stated: [pngpaste] ends with status 1 and the encoder
    is started all the same. *)
Lemma encode_spawned_after_failed_dump :
  option_map error (dumpFails (dumpCommand macEnv)) = Some (Some 1%Z)
  /\ spawned (events (run dumpFails (pasteHandler macEnv oneImage) emptyWorld))
     = [ "/usr/local/bin/pngpaste /tmp/vault-20240307-i.png";
         encodeCommand macEnv "/Users/me/vault/notes//vault-20240307-i.avif" ].
Proof. split; vm_compute; reflexivity. Qed.

Lemma encode_spawned_whatever_dump_status_witness :
  In (encodeCommand macEnv ("/Users/me/vault/notes/" ++ "/" ++ avifName macEnv))
     (spawned (events (run dumpFails
                         (getAvifPasteFile macEnv (fun _ => Emit PreventDefault Return))
                         emptyWorld))).
Proof.
  apply (encode_spawned_whatever_dump_status macEnv
           (fun _ => Emit PreventDefault Return) dumpFails emptyWorld
           "/Users/me/vault/notes/"
           {| error := Some 1%Z; stdout := EmptyString;
              stderr := "pngpaste: No image data found on the clipboard" |}).
  - vm_compute. reflexivity.
  - vm_compute. reflexivity.
Defined.

(* ===================================================================== *)
(** ** Path Resolver *)
(* ===================================================================== *)

Module PathFacts.
Import StringFacts NodePath.

Lemma split_app_sep (sep : ascii) (x : string) :
  split sep (x ++ String sep EmptyString) = (split sep x ++ [EmptyString])%list.
Proof.
  induction x as [|c x IH]; cbn [append split].
  - now rewrite Ascii.eqb_refl.
  - destruct (Ascii.eqb c sep); rewrite IH; [reflexivity|].
    destruct (split_cons sep x) as (l & ls & ->). reflexivity.
Qed.

(** A separator at the end adds an empty segment, which is skipped. *)
Lemma normalizeString_trailing (x : string) (allowAboveRoot : bool) :
  normalizeString (x ++ "/") allowAboveRoot = normalizeString x allowAboveRoot.
Proof.
  unfold normalizeString.
  change "/" with (String slash EmptyString).
  now rewrite split_app_sep, fold_left_app.
Qed.

Lemma endsWithSlash_app (x s : string) :
  s <> EmptyString -> endsWithSlash (x ++ s) = endsWithSlash s.
Proof.
  intros Hs. induction x as [|c x IH]; [reflexivity|].
  cbn [append endsWithSlash]. rewrite <- IH.
  destruct (x ++ s) eqn:Hx; [|reflexivity].
  destruct x; [contradiction | discriminate].
Qed.

Lemma isAbsolute_inv (a : string) :
  isAbsolute a = true -> exists a', a = String slash a'.
Proof.
  unfold isAbsolute. intros Ha.
  destruct a as [|c a']; [discriminate|]. cbn [startsWith] in Ha.
  apply andb_true_iff in Ha as [Hc _]. apply Ascii.eqb_eq in Hc. subst c.
  now exists a'.
Qed.

(** For an absolute folder and a setting that starts with [./] and does
    not end in a separator, [join] and [resolve] give the same path. *)
Lemma join_resolve_relative (cwd a s : string) :
  isAbsolute a = true ->
  startsWith s "./" = true ->
  endsWithSlash s = false ->
  join [a; s] = resolve cwd [a; s].
Proof.
  intros Ha Hs Hend.
  destruct (isAbsolute_inv _ Ha) as (a' & ->).
  apply startsWith_inv in Hs as (s' & Hs).
  assert (Hne : s <> EmptyString) by (subst s; discriminate).
  assert (Hrel : isAbsolute s = false) by (subst s; reflexivity).
  assert (Hjoin : joinArgs None [String slash a'; s]
                  = Some (String slash a' ++ "/" ++ s))
    by (subst s; reflexivity).
  assert (Hres : resolveArgs cwd [s; String slash a'] EmptyString
                 = ((String slash a' ++ "/" ++ s) ++ "/", true)).
  { cbn [resolveArgs]. rewrite Hrel.
    destruct s as [|c s0]; [contradiction|].
    change (isAbsolute (String slash a')) with true. cbv iota.
    f_equal. now rewrite !app_assoc, app_nil_r. }
  unfold join, resolve.
  change (rev [String slash a'; s]) with [s; String slash a'].
  rewrite Hjoin, Hres, normalizeString_trailing.
  unfold normalize.
  change (String slash a' ++ "/" ++ s) with (String slash (a' ++ "/" ++ s)) at 1.
  cbv iota.
  change (isAbsolute (String slash a' ++ "/" ++ s)) with true.
  rewrite <- (app_assoc (String slash a') "/" s).
  rewrite endsWithSlash_app, Hend by assumption.
  cbv zeta iota. cbn [negb].
  destruct (normalizeString ((String slash a' ++ "/") ++ s) false); reflexivity.
Qed.

(** [resolve] answers with an absolute path as soon as one of its
    arguments is absolute, and [decodeURI] keeps the leading separator. *)
Lemma resolve_absolute (cwd base parent : string) :
  isAbsolute base = true -> isAbsolute (resolve cwd [base; parent]) = true.
Proof.
  intros Hb. destruct (isAbsolute_inv _ Hb) as (b' & ->).
  unfold resolve. change (rev [String slash b'; parent]) with [parent; String slash b'].
  cbn [resolveArgs].
  destruct parent as [|c p]; [reflexivity|].
  destruct (isAbsolute (String c p)); reflexivity.
Qed.

Lemma decodeURI_absolute (p a : string) :
  isAbsolute p = true -> Uri.decodeURI p = Ok a -> isAbsolute a = true.
Proof.
  intros Hp Hd. destruct (isAbsolute_inv _ Hp) as (p' & ->).
  unfold Uri.decodeURI in Hd. cbn [Uri.lex] in Hd.
  change (Ascii.eqb slash percent) with false in Hd. cbv iota in Hd.
  destruct (Uri.lex p') as [toks|e]; [|discriminate].
  cbn [bind Uri.decodeToks] in Hd.
  destruct (Uri.decodeToks toks) as [s|e]; [|discriminate].
  cbn [bind] in Hd. injection Hd as <-. reflexivity.
Qed.

End PathFacts.

(** C5, refuted as stated: with the setting [./] (attachments in the
    folder of the note) the resolver answers with the joined path, which
    keeps the separator at the end; the resolved path has none. *)
Lemma getFileAssetPath_not_resolve :
  startsWith (attachmentFolderPath macEnv) "./" = true
  /\ activeDocumentFolder macEnv {| parentPath := "notes" |} = Ok "/Users/me/vault/notes"
  /\ getFileAssetPath macEnv = Ok "/Users/me/vault/notes/"
  /\ NodePath.resolve (cwd macEnv) ["/Users/me/vault/notes"; attachmentFolderPath macEnv]
     = "/Users/me/vault/notes"
  /\ NodePath.resolve (cwd macEnv) ["notes"; attachmentFolderPath macEnv] = "/notes".
Proof. repeat split; vm_compute; reflexivity. Qed.

Module NameFacts.
Import StringFacts.

Lemma length_take (n : nat) (s : string) : length (take n s) = Nat.min n (length s).
Proof.
  revert s; induction n as [|n IH]; intros [|c s]; cbn [take length Nat.min];
    try reflexivity.
  now rewrite IH.
Qed.

Lemma length_drop (n : nat) (s : string) : length (drop n s) = length s - n.
Proof.
  revert s; induction n as [|n IH]; intros [|c s]; cbn [drop length Nat.sub];
    try reflexivity.
  apply IH.
Qed.

Lemma length_substr (s : string) (start len : nat) :
  length (substr s start len) = Nat.min len (length s - start).
Proof. unfold substr. now rewrite length_take, length_drop. Qed.

Lemma length_zeros (n : nat) : length (zeros n) = n.
Proof. induction n as [|n IH]; cbn [zeros length]; [reflexivity | now rewrite IH]. Qed.

Lemma zeroFill_length (number targetLength : nat) :
  length (decimal number) <= targetLength ->
  length (zeroFill number targetLength) = targetLength.
Proof.
  intros Hle. unfold zeroFill. cbv zeta. rewrite length_app, length_zeros. lia.
Qed.

Definition shortBelow (digits bound : nat) : bool :=
  forallb (fun n => (length (decimal n) <=? digits)%nat) (seq 0 bound).

Lemma shortBelow_spec (digits bound n : nat) :
  shortBelow digits bound = true -> n < bound -> length (decimal n) <= digits.
Proof.
  unfold shortBelow. intros Hall Hn.
  rewrite forallb_forall in Hall.
  apply Nat.leb_le, Hall, in_seq. lia.
Qed.

Lemma decimal_four (n : nat) : n < 100 * 100 -> length (decimal n) <= 4.
Proof.
  intros Hn. apply (shortBelow_spec 4 (100 * 100)); [|lia].
  vm_compute. reflexivity.
Qed.

Lemma decimal_two (n : nat) : n <= 99 -> length (decimal n) <= 2.
Proof.
  intros Hn. apply (shortBelow_spec 2 100); [|lia].
  vm_compute. reflexivity.
Qed.

Definition digitsBelow (bound : nat) : bool :=
  forallb (fun n => allChars isDigit (decimal n)) (seq 0 bound).

Lemma digitsBelow_spec (bound n : nat) :
  digitsBelow bound = true -> n < bound -> allChars isDigit (decimal n) = true.
Proof.
  unfold digitsBelow. intros Hall Hn.
  rewrite forallb_forall in Hall.
  apply Hall, in_seq. lia.
Qed.

Lemma decimal_digits (n : nat) : n < 100 * 100 -> allChars isDigit (decimal n) = true.
Proof.
  intros Hn. apply (digitsBelow_spec (100 * 100)); [|lia].
  vm_compute. reflexivity.
Qed.

Lemma allChars_append (ok : ascii -> bool) (a b : string) :
  allChars ok (a ++ b) = allChars ok a && allChars ok b.
Proof.
  induction a as [|c a IH]; cbn [append allChars]; [reflexivity|].
  now rewrite IH, andb_assoc.
Qed.

Lemma zeroFill_digits (number targetLength : nat) :
  number < 100 * 100 -> allChars isDigit (zeroFill number targetLength) = true.
Proof.
  intros Hn. unfold zeroFill. cbv zeta.
  rewrite allChars_append, (decimal_digits _ Hn), andb_true_r.
  induction (targetLength - length (decimal number)) as [|k IH]; [reflexivity|].
  cbn [zeros allChars]. now rewrite IH.
Qed.

(** Under a locale that leaves the text as it is, a date before the year
    10000 is written as a hyphen, four digits of the year, two of the
    month, two of the day and a hyphen. *)
Lemma formatDate_shape (d : Date) :
  (forall output, postformat d output = output) ->
  year d < 100 * 100 -> month d <= 99 -> day d <= 99 ->
  formatDate d
  = "-" ++ zeroFill (year d) 4 ++ zeroFill (month d) 2 ++ zeroFill (day d) 2 ++ "-"
  /\ length (zeroFill (year d) 4) = 4
  /\ length (zeroFill (month d) 2) = 2
  /\ length (zeroFill (day d) 2) = 2
  /\ allChars isDigit
       (zeroFill (year d) 4 ++ zeroFill (month d) 2 ++ zeroFill (day d) 2) = true
  /\ length (formatDate d) = 10.
Proof.
  intros Hid Hy Hm Hd. unfold formatDate. rewrite Hid.
  pose proof (zeroFill_length _ 4 (decimal_four _ Hy)) as L4.
  pose proof (zeroFill_length _ 2 (decimal_two _ Hm)) as L2.
  pose proof (zeroFill_length _ 2 (decimal_two _ Hd)) as L2'.
  repeat split; try assumption.
  - rewrite !allChars_append, !zeroFill_digits; [reflexivity | lia | lia | lia].
  - rewrite !length_app, L4, L2, L2'. reflexivity.
Qed.

End NameFacts.

(** C8 (as the code has it). When the attachment directory resolves, the
    two paths share the prefix made of the vault's name, the date as
    moment writes [-YYYYMMDD-] in the host's locale, and the random
    token; the raw dump goes to [/tmp] with the extension [.png], the
    encoded file to the attachment directory with the extension [.avif].
    Under a locale that does not rewrite the text the date is a hyphen,
    the four digits of the year, the two of the month, the two of the
    day and a hyphen. The token is what follows the first two
    characters of the base-36 text of the draw, seven characters at most:
    seven when that text has nine characters or more, fewer otherwise. *)
Theorem getAvifPasteFile_paths (env : Env) (dir : string) :
  getFileAssetPath env = Ok dir ->
  randomPrefix env
  = getName env
    ++ postformat (today env)
         ("-" ++ zeroFill (year (today env)) 4 ++ zeroFill (month (today env)) 2
          ++ zeroFill (day (today env)) 2 ++ "-")
    ++ randomToken env
  /\ ((forall output, postformat (today env) output = output) ->
      year (today env) < 100 * 100 -> month (today env) <= 99 -> day (today env) <= 99 ->
      timebase env
      = "-" ++ zeroFill (year (today env)) 4 ++ zeroFill (month (today env)) 2
        ++ zeroFill (day (today env)) 2 ++ "-"
      /\ length (zeroFill (year (today env)) 4) = 4
      /\ length (zeroFill (month (today env)) 2) = 2
      /\ length (zeroFill (day (today env)) 2) = 2
      /\ allChars isDigit
           (zeroFill (year (today env)) 4 ++ zeroFill (month (today env)) 2
            ++ zeroFill (day (today env)) 2) = true
      /\ length (timebase env) = 10)
  /\ randomToken env = substr (randomText env) 2 7
  /\ length (randomToken env) <= 7
  /\ (9 <= length (randomText env) -> length (randomToken env) = 7)
  /\ temporaryRawPath env = "/tmp/" ++ randomPrefix env ++ ".png"
  /\ dumpCommand env = "/usr/local/bin/pngpaste " ++ temporaryRawPath env
  /\ fullAvifPath env = Ok (dir ++ "/" ++ randomPrefix env ++ ".avif").
Proof.
  intros Hdir.
  assert (Hlen : length (randomToken env) = Nat.min 7 (length (randomText env) - 2))
    by (unfold randomToken; apply NameFacts.length_substr).
  split; [reflexivity|].
  split; [intros Hid Hy Hm Hd; now apply NameFacts.formatDate_shape|].
  split; [reflexivity|].
  split; [lia|].
  split; [lia|].
  split; [reflexivity|].
  split; [reflexivity|].
  unfold fullAvifPath. now rewrite Hdir.
Qed.

Lemma getAvifPasteFile_paths_witness :
  randomPrefix spacedEnv = "vault-20240307-9zk3x8d"
  /\ length (timebase spacedEnv) = 10
  /\ length (randomToken spacedEnv) = 7
  /\ fullAvifPath spacedEnv
     = Ok ("/Users/me/My Vault/attachments" ++ "/" ++ randomPrefix spacedEnv ++ ".avif").
Proof.
  pose proof (getAvifPasteFile_paths spacedEnv "/Users/me/My Vault/attachments")
    as (Hp & Hdate & _ & _ & H7 & _ & _ & Hfull).
  - vm_compute. reflexivity.
  - split; [vm_compute; reflexivity|].
    split.
    + apply Hdate; [intros output; reflexivity | vm_compute; lia ..].
    + split; [apply H7; vm_compute; lia | exact Hfull].
Defined.

(** Under the Arabic locale the same day is written in that locale's
    digits, and the file names with it. *)
Example arabic_timebase :
  formatDate {| year := 2024; month := 3; day := 7; postformat := arabicPostformat |}
  = "-" ++ arabicDigit 2 ++ arabicDigit 0 ++ arabicDigit 2 ++ arabicDigit 4
    ++ arabicDigit 0 ++ arabicDigit 3 ++ arabicDigit 0 ++ arabicDigit 7 ++ "-".
Proof. vm_compute. reflexivity. Qed.

(** C8, refuted as stated: a draw of [0.5] reads [1.i] in base 36, and
    the token is the one character [i]. *)
Lemma randomToken_shorter_than_seven :
  randomText macEnv = "1.i"
  /\ randomToken macEnv = "i"
  /\ length (randomToken macEnv) = 1
  /\ fullAvifPath macEnv = Ok "/Users/me/vault/notes//vault-20240307-i.avif".
Proof. repeat split; vm_compute; reflexivity. Qed.

(* ===================================================================== *)
(** ** The embedded reference *)
(* ===================================================================== *)

Module UriFacts.

Lemma allChars_app (ok : ascii -> bool) (a b : string) :
  allChars ok (a ++ b) = allChars ok a && allChars ok b.
Proof.
  induction a as [|c a IH]; cbn [append allChars]; [reflexivity|].
  now rewrite IH, andb_assoc.
Qed.

Lemma hexDigit_unescaped (n : nat) : Uri.unescaped (Uri.hexDigit n) = true.
Proof.
  do 16 (destruct n as [|n]; [vm_compute; reflexivity|]).
  reflexivity.
Qed.

Lemma escape_uriChars (c : ascii) : allChars uriChar (Uri.escape c) = true.
Proof.
  unfold Uri.escape. cbv zeta. cbn [allChars]. unfold uriChar at 1 2 3.
  rewrite !hexDigit_unescaped, Ascii.eqb_refl.
  now rewrite orb_true_r.
Qed.

Lemma encodeURI_uriChars (s : string) : allChars uriChar (Uri.encodeURI s) = true.
Proof.
  induction s as [|c s IH]; [reflexivity|].
  cbn [Uri.encodeURI]. rewrite allChars_app, IH, andb_true_r.
  destruct (Uri.unescaped c) eqn:Hc; [|apply escape_uriChars].
  cbn [allChars]. unfold uriChar. now rewrite Hc.
Qed.

End UriFacts.

(** The whole paste, both processes ending well: the reference is written
    over the selection, after the two processes were started in order. *)
Example paste_end_to_end :
  run allSucceed (pasteHandler spacedEnv oneImage) emptyWorld
  = {| editor :=
         {| text := "# note![](file:////Users/me/My%20Vault/attachments/vault-20240307-9zk3x8d.avif)"
                    ++ String nl EmptyString;
            selFrom := 80;
            selTo := 80 |};
       events := events (run allSucceed (pasteHandler spacedEnv oneImage) emptyWorld);
       uncaught := [] |}
  /\ spawned (events (run allSucceed (pasteHandler spacedEnv oneImage) emptyWorld))
     = [ "/usr/local/bin/pngpaste /tmp/vault-20240307-9zk3x8d.png";
         "/Users/$USER/go/bin/avif --fast -e /tmp/vault-20240307-9zk3x8d.png -o "
         ++ String dquote ("/Users/me/My Vault/attachments/vault-20240307-9zk3x8d.avif"
         ++ String dquote EmptyString) ].
Proof. split; vm_compute; reflexivity. Qed.

(* ===================================================================== *)
(** ** More on the classifier *)
(* ===================================================================== *)

Section ClassifierMore.

Context {E : Type} `{Editor E}.

(** X1. The handler's condition never answers false: it answers true, or
    it raises on an empty file list. The branch that logs [cannot paste]
    is therefore never taken. *)
Theorem isImagePaste_true_or_raises (env : Env) (evt : ClipboardEvent) :
  (isImagePaste env evt = Ok true
   \/ (files evt = []
       /\ isImagePaste env evt
          = Throw (TypeError "Cannot read properties of undefined (reading 'type')")))
  /\ pasteHandler env evt <> Emit (ConsoleLog ["cannot paste"]) Return.
Proof.
  assert (Hc : isImagePaste env evt = Ok true
               \/ (files evt = []
                   /\ isImagePaste env evt
                      = Throw (TypeError "Cannot read properties of undefined (reading 'type')"))).
  { unfold isImagePaste. destruct (isCopyImageFile env); [now left|].
    destruct (files evt) as [|f fs]; [right | left]; now cbn. }
  split; [exact Hc|].
  unfold pasteHandler.
  destruct (negb (getOS env =? "MacOS")%string); [discriminate|].
  destruct Hc as [-> | [_ ->]]; [|discriminate].
  unfold getAvifPasteFile. destruct (getFileAssetPath env); discriminate.
Qed.

(** X2. On MacOS a paste is taken for an image paste as soon as the
    clipboard names an image file or the paste brings any file at all,
    whatever the types of the files: the handler goes on to the
    conversion. *)
Theorem nonempty_files_taken_for_image (env : Env) (evt : ClipboardEvent) :
  getOS env = "MacOS" ->
  isCopyImageFile env = true \/ files evt <> [] ->
  isImagePaste env evt = Ok true
  /\ pasteHandler env evt
     = Emit (ConsoleLog ["pasting image"])
         (getAvifPasteFile env (fun _ => Emit PreventDefault Return)).
Proof.
  intros Hos Hf.
  assert (Hc : isImagePaste env evt = Ok true).
  { unfold isImagePaste. destruct (isCopyImageFile env); [reflexivity|].
    destruct Hf as [Hf | Hf]; [discriminate|].
    destruct (files evt); [contradiction | reflexivity]. }
  split; [exact Hc|].
  unfold pasteHandler. now rewrite Hos, Hc.
Qed.

(** X3. The paste handler reads the clipboard under one format only,
    [public.file-url]: what the clipboard holds under any other format,
    [FileNameW] of the Windows branch of [isCopyImageFile] included, has
    no effect on what the handler does. *)
Theorem pasteHandler_reads_file_url_only
  (env : Env) (read : string -> string) (evt : ClipboardEvent) :
  read "public.file-url" = clipboardRead env "public.file-url" ->
  pasteHandler (withClipboard env read) evt = pasteHandler env evt.
Proof.
  intros Hread. unfold pasteHandler.
  change (getOS (withClipboard env read)) with (getOS env).
  destruct (getOS env =? "MacOS")%string eqn:Hos; [|reflexivity].
  apply String.eqb_eq in Hos. cbn [negb].
  assert (Hc : isImagePaste (withClipboard env read) evt = isImagePaste env evt).
  { unfold isImagePaste, isCopyImageFile.
    change (getOS (withClipboard env read)) with (getOS env).
    rewrite Hos.
    change ("MacOS" =? "Windows")%string with false.
    change ("MacOS" =? "MacOS")%string with true. cbv iota.
    change (clipboardRead (withClipboard env read)) with read.
    now rewrite Hread. }
  rewrite Hc. reflexivity.
Qed.

End ClassifierMore.

(** X4. On a platform that [getOS] names neither [Windows] nor [MacOS],
    [isCopyImageFile] is false whatever the clipboard holds. *)
Theorem isCopyImageFile_false_elsewhere (env : Env) :
  getOS env <> "Windows" -> getOS env <> "MacOS" -> isCopyImageFile env = false.
Proof.
  intros HW HM. unfold isCopyImageFile.
  apply String.eqb_neq in HW, HM. rewrite HW, HM. vm_compute. reflexivity.
Qed.

Lemma nonempty_files_taken_for_image_witness :
  isImagePaste macEnv twoDocuments = Ok true
  /\ @pasteHandler TextEditor _ macEnv twoDocuments
     = Emit (ConsoleLog ["pasting image"])
         (getAvifPasteFile macEnv (fun _ => Emit PreventDefault Return)).
Proof.
  apply (nonempty_files_taken_for_image macEnv twoDocuments).
  - vm_compute. reflexivity.
  - right. discriminate.
Defined.

Lemma pasteHandler_reads_file_url_only_witness :
  @pasteHandler TextEditor _
    (withClipboard macEnv
       (fun format => if (format =? "FileNameW")%string then "C:\shots\cat.png"
                      else EmptyString))
    noFiles
  = pasteHandler macEnv noFiles.
Proof.
  apply (pasteHandler_reads_file_url_only macEnv
           (fun format => if (format =? "FileNameW")%string then "C:\shots\cat.png"
                          else EmptyString) noFiles).
  vm_compute. reflexivity.
Defined.

Lemma isCopyImageFile_false_elsewhere_witness : isCopyImageFile linuxEnv = false.
Proof.
  apply (isCopyImageFile_false_elsewhere linuxEnv);
    apply String.eqb_neq; vm_compute; reflexivity.
Defined.

(* ===================================================================== *)
(** ** More on the conversion chain *)
(* ===================================================================== *)

Section ChainMore.

Context {E : Type} `{Editor E}.

(** The world after the handler ran on an image paste whose attachment
    directory resolved to [dir]. *)
Lemma run_pasteHandler_image
  (env : Env) (evt : ClipboardEvent) (outcome : string -> option ExecResult)
  (w : World) (dir : string) :
  getOS env = "MacOS" ->
  isImagePaste env evt = Ok true ->
  getFileAssetPath env = Ok dir ->
  run outcome (pasteHandler env evt) w
  = run outcome (getAvifPasteFile env (fun _ => Emit PreventDefault Return))
      (emit (ConsoleLog ["pasting image"]) w).
Proof.
  intros Hos Hc Hdir. unfold pasteHandler. rewrite Hos, Hc. reflexivity.
Qed.

(** X5. On an image paste the dump is started first, and the encoder is
    started after it, once, exactly when the dump has ended; no other
    process is started. *)
Theorem dump_then_encode
  (env : Env) (evt : ClipboardEvent) (outcome : string -> option ExecResult)
  (w : World) (dir : string) :
  getOS env = "MacOS" ->
  isImagePaste env evt = Ok true ->
  getFileAssetPath env = Ok dir ->
  spawned (events (run outcome (pasteHandler env evt) w))
  = (spawned (events w)
     ++ dumpCommand env
        :: match outcome (dumpCommand env) with
           | Some _ => [encodeCommand env (dir ++ "/" ++ avifName env)]
           | None => []
           end)%list.
Proof.
  intros Hos Hc Hdir.
  rewrite (run_pasteHandler_image _ _ _ _ _ Hos Hc Hdir).
  rewrite (run_getAvifPasteFile _ _ _ _ _ Hdir). cbv zeta. cbn [run].
  destruct (outcome (dumpCommand env)) as [r1|];
    [destruct (outcome (encodeCommand env _)) as [r2|]|];
    cbn [edit emit events]; rewrite !spawned_app; cbn [spawned];
    rewrite ?List.app_nil_r, <- ?List.app_assoc; reflexivity.
Qed.

(** X6. On an image paste the document is written to only when both
    processes have ended, and then by [insertTemporaryText] with the
    encoded file's path, whatever the exit status of either process; if
    one of them never ends the document stays as it was. *)
Theorem document_written_when_both_end
  (env : Env) (evt : ClipboardEvent) (outcome : string -> option ExecResult)
  (w : World) (dir : string) :
  getOS env = "MacOS" ->
  isImagePaste env evt = Ok true ->
  getFileAssetPath env = Ok dir ->
  editor (run outcome (pasteHandler env evt) w)
  = match outcome (dumpCommand env),
          outcome (encodeCommand env (dir ++ "/" ++ avifName env)) with
    | Some _, Some _ => insertTemporaryText (editor w) (dir ++ "/" ++ avifName env)
    | _, _ => editor w
    end.
Proof.
  intros Hos Hc Hdir.
  rewrite (run_pasteHandler_image _ _ _ _ _ Hos Hc Hdir).
  rewrite (run_getAvifPasteFile _ _ _ _ _ Hdir). cbv zeta. cbn [run].
  destruct (outcome (dumpCommand env)) as [r1|];
    [destruct (outcome (encodeCommand env _)) as [r2|]|]; reflexivity.
Qed.

(** X7. On an image paste whose attachment directory resolves, the
    default paste is prevented, and it is prevented right after the dump
    was started, before any process has ended: whether the conversion
    works or not plays no part. *)
Theorem default_prevented_before_conversion
  (env : Env) (evt : ClipboardEvent) (outcome : string -> option ExecResult)
  (w : World) (dir : string) :
  getOS env = "MacOS" ->
  isImagePaste env evt = Ok true ->
  getFileAssetPath env = Ok dir ->
  exists later,
    events (run outcome (pasteHandler env evt) w)
    = (events w
       ++ [ConsoleLog ["pasting image"];
           ConsoleDebug ["pngpath:"; pngPath env];
           ConsoleDebug ["avifpath:"; avifName env];
           ConsoleDebug ["full avifpath:"; (dir ++ "/" ++ avifName env)%string];
           ConsoleDebug ["full avif exec path:"; avifPath (settings env)];
           Spawn (dumpCommand env);
           PreventDefault]
       ++ later)%list
    /\ (outcome (dumpCommand env) = None -> later = []).
Proof.
  intros Hos Hc Hdir.
  rewrite (run_pasteHandler_image _ _ _ _ _ Hos Hc Hdir).
  rewrite (run_getAvifPasteFile _ _ _ _ _ Hdir). cbv zeta. cbn [run].
  destruct (outcome (dumpCommand env)) as [r1|];
    [destruct (outcome (encodeCommand env _)) as [r2|]|];
    cbn [edit emit events]; eexists;
    (split; [rewrite <- !List.app_assoc; cbn [app]; reflexivity|]);
    intros Hn; try discriminate; reflexivity.
Qed.

(** X8. When the attachment directory does not resolve (no document is
    open, or the folder's text is no valid URI), the handler ends with
    that error uncaught right after its first console message: no process
    is started, the default paste is not prevented, the document is as it
    was. *)
Theorem unresolved_directory_aborts
  (env : Env) (evt : ClipboardEvent) (outcome : string -> option ExecResult)
  (w : World) (e : JsError) :
  getOS env = "MacOS" ->
  isImagePaste env evt = Ok true ->
  getFileAssetPath env = Throw e ->
  run outcome (pasteHandler env evt) w
  = {| editor := editor w;
       events := (events w ++ [ConsoleLog ["pasting image"]])%list;
       uncaught := (uncaught w ++ [e])%list |}.
Proof.
  intros Hos Hc Hdir. unfold pasteHandler, getAvifPasteFile.
  rewrite Hos, Hc, Hdir. reflexivity.
Qed.

End ChainMore.

Lemma dump_then_encode_witness :
  spawned (events (run dumpHangs (pasteHandler spacedEnv oneImage) emptyWorld))
  = (spawned (events emptyWorld)
     ++ dumpCommand spacedEnv
        :: match dumpHangs (dumpCommand spacedEnv) with
           | Some _ => [encodeCommand spacedEnv
                          ("/Users/me/My Vault/attachments" ++ "/" ++ avifName spacedEnv)]
           | None => []
           end)%list.
Proof.
  apply (dump_then_encode spacedEnv oneImage dumpHangs emptyWorld
           "/Users/me/My Vault/attachments"); vm_compute; reflexivity.
Defined.

Lemma document_written_when_both_end_witness :
  editor (run encoderMissing (pasteHandler spacedEnv oneImage) emptyWorld)
  = match encoderMissing (dumpCommand spacedEnv),
          encoderMissing (encodeCommand spacedEnv
                            ("/Users/me/My Vault/attachments" ++ "/" ++ avifName spacedEnv)) with
    | Some _, Some _ =>
        insertTemporaryText (editor emptyWorld)
          ("/Users/me/My Vault/attachments" ++ "/" ++ avifName spacedEnv)
    | _, _ => editor emptyWorld
    end.
Proof.
  apply (document_written_when_both_end spacedEnv oneImage encoderMissing emptyWorld
           "/Users/me/My Vault/attachments"); vm_compute; reflexivity.
Defined.

(** With the encoder missing the reference to the file that was never
    written is in the document all the same. *)
Example encoderMissing_still_embeds :
  text (editor (run encoderMissing (pasteHandler spacedEnv oneImage) emptyWorld))
  = "# note![](file:////Users/me/My%20Vault/attachments/vault-20240307-9zk3x8d.avif)"
    ++ String nl EmptyString.
Proof. vm_compute. reflexivity. Qed.

Lemma default_prevented_before_conversion_witness :
  exists later,
    events (run dumpHangs (pasteHandler spacedEnv oneImage) emptyWorld)
    = (events emptyWorld
       ++ [ConsoleLog ["pasting image"];
           ConsoleDebug ["pngpath:"; pngPath spacedEnv];
           ConsoleDebug ["avifpath:"; avifName spacedEnv];
           ConsoleDebug ["full avifpath:";
                         ("/Users/me/My Vault/attachments" ++ "/" ++ avifName spacedEnv)%string];
           ConsoleDebug ["full avif exec path:"; avifPath (settings spacedEnv)];
           Spawn (dumpCommand spacedEnv);
           PreventDefault]
       ++ later)%list
    /\ (dumpHangs (dumpCommand spacedEnv) = None -> later = []).
Proof.
  apply (default_prevented_before_conversion spacedEnv oneImage dumpHangs emptyWorld
           "/Users/me/My Vault/attachments"); vm_compute; reflexivity.
Defined.

Lemma unresolved_directory_aborts_witness :
  run allSucceed (pasteHandler noDocumentEnv oneImage) emptyWorld
  = {| editor := editor emptyWorld;
       events := (events emptyWorld ++ [ConsoleLog ["pasting image"]])%list;
       uncaught := (uncaught emptyWorld
                    ++ [TypeError "Cannot read properties of null (reading 'path')"])%list |}.
Proof.
  apply (unresolved_directory_aborts noDocumentEnv oneImage allSucceed emptyWorld
           (TypeError "Cannot read properties of null (reading 'path')"));
    vm_compute; reflexivity.
Defined.

(* ===================================================================== *)
(** ** More on the Path Resolver *)
(* ===================================================================== *)

Module ResolverFacts.
Import StringFacts NodePath.

Lemma hexVal_percent : Uri.hexVal percent = None.
Proof. vm_compute. reflexivity. Qed.

Lemma lex_at_percent (rest : string) :
  twoHex rest = false -> Uri.lex (String percent rest) = Throw Uri.malformed.
Proof.
  intros Hbad. cbn [Uri.lex]. rewrite Ascii.eqb_refl.
  destruct rest as [|h [|l r]]; try reflexivity.
  cbn [twoHex] in Hbad.
  destruct (Uri.hexVal h), (Uri.hexVal l); try reflexivity. discriminate.
Qed.

(** A percent sign cannot pass for a hexadecimal digit, so one that is
    not followed by two of them stops [lex] wherever it stands. *)
Lemma lex_stray_percent (n : nat) :
  forall pre rest,
    length pre <= n -> twoHex rest = false ->
    Uri.lex (pre ++ String percent rest) = Throw Uri.malformed.
Proof.
  induction n as [|n IH]; intros pre rest Hlen Hbad.
  - destruct pre; [now apply lex_at_percent | cbn [length] in Hlen; lia].
  - destruct pre as [|c pre]; [now apply lex_at_percent|].
    cbn [length] in Hlen. cbn [append Uri.lex].
    destruct (Ascii.eqb c percent).
    + destruct pre as [|h [|l pre]]; cbn [append].
      * rewrite hexVal_percent. destruct rest; reflexivity.
      * rewrite hexVal_percent. destruct (Uri.hexVal h); reflexivity.
      * destruct (Uri.hexVal h), (Uri.hexVal l); try reflexivity.
        rewrite IH; [reflexivity | cbn [length] in Hlen; lia | assumption].
    + rewrite IH; [reflexivity | lia | assumption].
Qed.

Lemma decodeURI_stray_percent (pre rest : string) :
  twoHex rest = false ->
  Uri.decodeURI (pre ++ String percent rest) = Throw Uri.malformed.
Proof.
  intros Hbad. unfold Uri.decodeURI.
  now rewrite (lex_stray_percent (length pre) pre rest (le_n _) Hbad).
Qed.

Lemma normalize_absolute (p : string) :
  isAbsolute p = true -> isAbsolute (normalize p) = true.
Proof.
  intros Hp. destruct (PathFacts.isAbsolute_inv _ Hp) as (p' & ->).
  unfold normalize. cbv zeta.
  change (isAbsolute (String slash p')) with true. cbv iota.
  destruct (normalizeString (String slash p') (negb true)); [reflexivity|].
  destruct (endsWithSlash (String slash p')); reflexivity.
Qed.

Lemma join_absolute (a s : string) :
  isAbsolute a = true -> isAbsolute (join [a; s]) = true.
Proof.
  intros Ha. destruct (PathFacts.isAbsolute_inv _ Ha) as (a' & ->).
  unfold join.
  destruct s as [|c s]; cbn [joinArgs]; apply normalize_absolute; reflexivity.
Qed.

End ResolverFacts.

Lemma getFileAssetPath_configured (env : Env) :
  getFileAssetPathWith (Some (attachmentFolderPath env)) env = getFileAssetPath env.
Proof. reflexivity. Qed.

(** X9. [getFileAssetPath] raises in three cases and no other: no
    document is open (whatever the setting), [TypeError]; a document is
    open and the vault has no attachment folder setting, [TypeError]; or
    the setting starts with [./] and [decodeURI] refuses the text of
    [resolve(basePath, parent path)], with the error [decodeURI]
    raises. *)
Theorem getFileAssetPathWith_raises_iff
  (config : option string) (env : Env) (e : JsError) :
  getFileAssetPathWith config env = Throw e
  <-> ((getActiveFile env = None
        /\ e = TypeError "Cannot read properties of null (reading 'path')")
       \/ (exists activeFile,
             getActiveFile env = Some activeFile
             /\ config = None
             /\ e = TypeError "Cannot read properties of undefined (reading 'startsWith')")
       \/ (exists activeFile assetFolder,
             getActiveFile env = Some activeFile
             /\ config = Some assetFolder
             /\ startsWith assetFolder "./" = true
             /\ Uri.decodeURI
                  (NodePath.resolve (cwd env) [getBasePath env; parentPath activeFile])
                = Throw e)).
Proof.
  unfold getFileAssetPathWith. cbv zeta. split.
  - intros He. destruct (getActiveFile env) as [f|].
    + right. destruct config as [s|].
      * right. exists f, s.
        destruct (startsWith s "./"); [|discriminate].
        destruct (Uri.decodeURI _) as [a|e']; [discriminate|].
        injection He as <-. repeat split; reflexivity.
      * left. exists f. injection He as <-. repeat split; reflexivity.
    + left. injection He as <-. split; reflexivity.
  - intros [[Hn ->] | [(f & Hf & -> & ->) | (f & s & Hf & -> & Hs & Hd)]].
    + now rewrite Hn.
    + now rewrite Hf.
    + now rewrite Hf, Hs, Hd.
Qed.

(** A vault whose attachment folder was never chosen cannot take a
    pasted image. *)
Example unset_setting_raises :
  getFileAssetPathWith None spacedEnv
  = Throw (TypeError "Cannot read properties of undefined (reading 'startsWith')").
Proof. vm_compute. reflexivity. Qed.

(** X10. With a setting that starts with [./], a percent sign in the
    active document's folder path that is not followed by two hexadecimal
    digits makes [getFileAssetPath] raise [URIError]: a folder named with
    a literal percent sign cannot take pasted images. *)
Theorem stray_percent_raises_URIError
  (env : Env) (activeFile : TFile) (pre rest : string) :
  getActiveFile env = Some activeFile ->
  startsWith (attachmentFolderPath env) "./" = true ->
  NodePath.resolve (cwd env) [getBasePath env; parentPath activeFile]
  = pre ++ String percent rest ->
  twoHex rest = false ->
  getFileAssetPath env = Throw (URIError "URI malformed").
Proof.
  intros Hf Hs Hres Hbad. unfold getFileAssetPath.
  rewrite Hf, Hs, Hres, (ResolverFacts.decodeURI_stray_percent _ _ Hbad).
  reflexivity.
Qed.

Lemma stray_percent_raises_URIError_witness :
  getFileAssetPath percentEnv = Throw (URIError "URI malformed").
Proof.
  apply (stray_percent_raises_URIError percentEnv {| parentPath := "notes" |}
           "/Users/me/100" " done/notes"); vm_compute; reflexivity.
Defined.

(** X11. With a setting that starts with [./] and an active document
    whose parent path is absolute, the vault's base path plays no part in
    the attachment directory: [resolve] stops at the absolute parent
    path. The root folder's path [/] is such a path. *)
Theorem absolute_parent_ignores_base
  (env : Env) (activeFile : TFile) (basePath : string) :
  getActiveFile env = Some activeFile ->
  NodePath.isAbsolute (parentPath activeFile) = true ->
  startsWith (attachmentFolderPath env) "./" = true ->
  getFileAssetPath (withBasePath env basePath) = getFileAssetPath env
  /\ getFileAssetPath env
     = (activeFolder <- Uri.decodeURI (NodePath.resolve (cwd env) [parentPath activeFile]) ;;
        Ok (NodePath.join [activeFolder; attachmentFolderPath env])).
Proof.
  intros Hf Hp Hs.
  destruct (PathFacts.isAbsolute_inv _ Hp) as (p' & Hp').
  assert (Hres : forall b,
    NodePath.resolve (cwd env) [b; parentPath activeFile]
    = NodePath.resolve (cwd env) [parentPath activeFile]).
  { intros b. unfold NodePath.resolve.
    change (rev [b; parentPath activeFile]) with [parentPath activeFile; b].
    change (rev [parentPath activeFile]) with [parentPath activeFile].
    rewrite Hp'. reflexivity. }
  assert (Hbody : forall e',
    getActiveFile e' = Some activeFile ->
    attachmentFolderPath e' = attachmentFolderPath env ->
    cwd e' = cwd env ->
    getFileAssetPath e'
    = (activeFolder <- Uri.decodeURI (NodePath.resolve (cwd env) [parentPath activeFile]) ;;
       Ok (NodePath.join [activeFolder; attachmentFolderPath env]))).
  { intros e' Hf' Ha' Hc'. unfold getFileAssetPath.
    rewrite Hf', Ha', Hs, Hc', Hres. reflexivity. }
  split.
  - rewrite (Hbody (withBasePath env basePath) Hf eq_refl eq_refl).
    now rewrite (Hbody env Hf eq_refl eq_refl).
  - exact (Hbody env Hf eq_refl eq_refl).
Qed.

Lemma absolute_parent_ignores_base_witness :
  getFileAssetPath (withBasePath rootNoteEnv "/Volumes/backup/vault")
  = getFileAssetPath rootNoteEnv
  /\ getFileAssetPath rootNoteEnv
     = (activeFolder <- Uri.decodeURI (NodePath.resolve (cwd rootNoteEnv) ["/"]) ;;
        Ok (NodePath.join [activeFolder; attachmentFolderPath rootNoteEnv])).
Proof.
  apply (absolute_parent_ignores_base rootNoteEnv {| parentPath := "/" |}
           "/Volumes/backup/vault"); vm_compute; reflexivity.
Defined.

(** A note at the top of the vault sends its attachments to [/assets],
    outside the vault. *)
Example rootNote_leaves_vault : getFileAssetPath rootNoteEnv = Ok "/assets".
Proof. vm_compute. reflexivity. Qed.

(** X12. With an absolute base path the attachment directory is absolute,
    and the reference written for a file in it starts with [file:////]:
    the three separators of the scheme and the one of the path. *)
Theorem resolved_directory_absolute (env : Env) (dir : string) :
  NodePath.isAbsolute (getBasePath env) = true ->
  getFileAssetPath env = Ok dir ->
  NodePath.isAbsolute dir = true
  /\ forall name, startsWith (getFileName (dir ++ "/" ++ name)) "file:////" = true.
Proof.
  intros Hb Hdir.
  assert (Habs : NodePath.isAbsolute dir = true).
  { unfold getFileAssetPath in Hdir.
    destruct (getActiveFile env) as [f|]; [|discriminate].
    destruct (startsWith (attachmentFolderPath env) "./").
    - destruct (Uri.decodeURI _) as [a|] eqn:Ha; [|discriminate].
      cbn [bind] in Hdir. injection Hdir as <-.
      apply ResolverFacts.join_absolute.
      apply (PathFacts.decodeURI_absolute _ _ (PathFacts.resolve_absolute _ _ _ Hb) Ha).
    - injection Hdir as <-. now apply ResolverFacts.join_absolute. }
  split; [exact Habs|].
  intros name. destruct (PathFacts.isAbsolute_inv _ Habs) as (d' & ->).
  reflexivity.
Qed.

Lemma resolved_directory_absolute_witness :
  NodePath.isAbsolute "/Users/me/My Vault/notes/2024/assets" = true
  /\ forall name,
       startsWith (getFileName ("/Users/me/My Vault/notes/2024/assets" ++ "/" ++ name))
                  "file:////" = true.
Proof.
  apply (resolved_directory_absolute subfolderEnv "/Users/me/My Vault/notes/2024/assets");
    vm_compute; reflexivity.
Defined.

(* ===================================================================== *)
(** ** The written reference leads back to the file *)
(* ===================================================================== *)

Module UriRoundTrip.
Import StringFacts.

(** What [lex] reads in an encoded text, character by character of the
    text that was encoded. *)
Definition tok (c : ascii) : Uri.UriTok :=
  let n := nat_of_ascii c in
  if Uri.unescaped c then Uri.Lit c
  else Uri.Esc (Uri.hexDigit (n / 16)) (Uri.hexDigit (n mod 16)) n.

Fixpoint toks (s : string) : list Uri.UriTok :=
  match s with
  | EmptyString => []
  | String c rest => tok c :: toks rest
  end.

Lemma unescaped_low (c : ascii) :
  Uri.unescaped c && negb (nat_of_ascii c <? 128)%nat = false.
Proof.
  destruct c as [[] [] [] [] [] [] [] []]; vm_compute; reflexivity.
Qed.

Lemma unescaped_not_percent (c : ascii) :
  Uri.unescaped c = true -> Ascii.eqb c percent = false.
Proof.
  destruct c as [[] [] [] [] [] [] [] []]; vm_compute; intros Hu;
    first [reflexivity | discriminate].
Qed.

Lemma high_escaped (c : ascii) :
  (nat_of_ascii c <? 128)%nat = false -> Uri.unescaped c = false.
Proof.
  intros Hc. pose proof (unescaped_low c) as Hu. rewrite Hc in Hu.
  now destruct (Uri.unescaped c).
Qed.

Lemma reserved_unescaped (c : ascii) :
  Uri.inSet c Uri.uriReservedPlusHash = true -> Uri.unescaped c = true.
Proof. intros Hr. unfold Uri.unescaped. rewrite Hr. apply orb_true_r. Qed.

Lemma hexVal_hexDigit (k : nat) : k < 16 -> Uri.hexVal (Uri.hexDigit k) = Some k.
Proof.
  intros Hk.
  do 16 (destruct k as [|k]; [vm_compute; reflexivity|]). lia.
Qed.

Lemma lex_escape (c : ascii) (rest : string) :
  Uri.lex (Uri.escape c ++ rest)
  = toks' <- Uri.lex rest ;;
    Ok (Uri.Esc (Uri.hexDigit (nat_of_ascii c / 16))
                (Uri.hexDigit (nat_of_ascii c mod 16)) (nat_of_ascii c) :: toks').
Proof.
  pose proof (nat_ascii_bounded c) as Hb.
  unfold Uri.escape. cbv zeta. cbn [append Uri.lex]. rewrite Ascii.eqb_refl.
  rewrite !hexVal_hexDigit.
  - replace (16 * (nat_of_ascii c / 16) + nat_of_ascii c mod 16)
      with (nat_of_ascii c) by (apply Nat.div_mod_eq). reflexivity.
  - apply Nat.mod_upper_bound. lia.
  - apply Nat.Div0.div_lt_upper_bound. lia.
Qed.

Lemma lex_encodeURI (s : string) : Uri.lex (Uri.encodeURI s) = Ok (toks s).
Proof.
  induction s as [|c s IH]; [reflexivity|].
  cbn [Uri.encodeURI toks]. unfold tok. cbv zeta.
  destruct (Uri.unescaped c) eqn:Hu.
  - cbn [append Uri.lex]. rewrite (unescaped_not_percent _ Hu), IH. reflexivity.
  - rewrite lex_escape, IH. reflexivity.
Qed.

Lemma tok_high (c : ascii) :
  (nat_of_ascii c <? 128)%nat = false ->
  tok c = Uri.Esc (Uri.hexDigit (nat_of_ascii c / 16))
                  (Uri.hexDigit (nat_of_ascii c mod 16)) (nat_of_ascii c).
Proof. intros Hc. unfold tok. now rewrite (high_escaped _ Hc). Qed.

Lemma cont_high (c : ascii) :
  Uri.cont (nat_of_ascii c) = true -> (nat_of_ascii c <? 128)%nat = false.
Proof.
  unfold Uri.cont, Uri.within. intros Hc.
  apply andb_true_iff in Hc as [Hlo _]. apply Nat.leb_le in Hlo.
  apply Nat.ltb_ge. lia.
Qed.

Lemma byte_nat (c : ascii) : Uri.byte (nat_of_ascii c) = String c EmptyString.
Proof. unfold Uri.byte. now rewrite ascii_nat_embedding. Qed.

Lemma valid2_cont (b1 : nat) (c2 : ascii) :
  Uri.valid2 b1 (nat_of_ascii c2) = true -> Uri.cont (nat_of_ascii c2) = true.
Proof. unfold Uri.valid2. intros Hv. now apply andb_true_iff in Hv as [_ Hv]. Qed.

Lemma within_sub (lo hi lo' hi' b : nat) :
  lo' <= lo -> hi <= hi' -> Uri.within lo hi b = true -> Uri.within lo' hi' b = true.
Proof.
  unfold Uri.within. intros Hlo Hhi Hw.
  apply andb_true_iff in Hw as [H1 H2]. apply Nat.leb_le in H1, H2.
  apply andb_true_iff. split; apply Nat.leb_le; lia.
Qed.

Lemma valid3_cont (b1 : nat) (c2 c3 : ascii) :
  Uri.valid3 b1 (nat_of_ascii c2) (nat_of_ascii c3) = true ->
  Uri.cont (nat_of_ascii c2) = true /\ Uri.cont (nat_of_ascii c3) = true.
Proof.
  unfold Uri.valid3, Uri.cont. intros Hv.
  apply andb_true_iff in Hv as [Hv H3]. split; [|exact H3].
  repeat (apply orb_true_iff in Hv as [Hv | Hv]);
    apply andb_true_iff in Hv as [_ Hv];
    first [exact Hv | eapply within_sub; [| |exact Hv]; lia].
Qed.

Lemma valid4_cont (b1 : nat) (c2 c3 c4 : ascii) :
  Uri.valid4 b1 (nat_of_ascii c2) (nat_of_ascii c3) (nat_of_ascii c4) = true ->
  Uri.cont (nat_of_ascii c2) = true /\ Uri.cont (nat_of_ascii c3) = true
  /\ Uri.cont (nat_of_ascii c4) = true.
Proof.
  unfold Uri.valid4, Uri.cont. intros Hv.
  apply andb_true_iff in Hv as [Hv H4].
  apply andb_true_iff in Hv as [Hv H3]. split; [|split; assumption].
  repeat (apply orb_true_iff in Hv as [Hv | Hv]);
    apply andb_true_iff in Hv as [_ Hv];
    first [exact Hv | eapply within_sub; [| |exact Hv]; lia].
Qed.

(** Decoding the tokens of a well-formed text gives the text back. *)
Lemma decodeToks_toks (n : nat) :
  forall s, length s <= n -> wellFormed s = true -> Uri.decodeToks (toks s) = Ok s.
Proof.
  induction n as [|n IH]; intros s Hlen Hwf.
  - destruct s; [reflexivity | cbn [length] in Hlen; lia].
  - destruct s as [|c1 r1]; [reflexivity|].
    cbn [length] in Hlen. cbn [wellFormed] in Hwf. cbv zeta in Hwf.
    cbn [toks].
    destruct (nat_of_ascii c1 <? 128)%nat eqn:H1.
    + (* one byte *)
      unfold tok. cbv zeta. destruct (Uri.unescaped c1) eqn:Hu.
      * cbn [Uri.decodeToks]. rewrite (IH r1) by (assumption || lia). reflexivity.
      * cbn [Uri.decodeToks]. rewrite H1, (IH r1) by (assumption || lia).
        cbn [bind]. rewrite ascii_nat_embedding.
        destruct (Uri.inSet c1 Uri.uriReservedPlusHash) eqn:Hr.
        -- apply reserved_unescaped in Hr. congruence.
        -- rewrite byte_nat. reflexivity.
    + rewrite (tok_high _ H1). cbn [Uri.decodeToks]. rewrite H1.
      destruct (Uri.within 192 223 (nat_of_ascii c1)) eqn:W2.
      * (* two bytes *)
        destruct r1 as [|c2 r2]; [discriminate|].
        apply andb_true_iff in Hwf as [Hv Hwf].
        pose proof (cont_high _ (valid2_cont _ _ Hv)) as H2.
        cbn [toks]. rewrite (tok_high _ H2), Hv.
        cbn [length] in Hlen.
        rewrite (IH r2) by (assumption || lia).
        cbn [bind]. rewrite !byte_nat. reflexivity.
      * destruct (Uri.within 224 239 (nat_of_ascii c1)) eqn:W3.
        -- (* three bytes *)
           destruct r1 as [|c2 [|c3 r3]]; try discriminate.
           apply andb_true_iff in Hwf as [Hv Hwf].
           destruct (valid3_cont _ _ _ Hv) as [K2 K3].
           cbn [toks]. rewrite (tok_high _ (cont_high _ K2)),
                                (tok_high _ (cont_high _ K3)), Hv.
           cbn [length] in Hlen.
           rewrite (IH r3) by (assumption || lia).
           cbn [bind]. rewrite !byte_nat. reflexivity.
        -- destruct (Uri.within 240 247 (nat_of_ascii c1)) eqn:W4; [|discriminate].
           (* four bytes *)
           destruct r1 as [|c2 [|c3 [|c4 r4]]]; try discriminate.
           apply andb_true_iff in Hwf as [Hv Hwf].
           destruct (valid4_cont _ _ _ _ Hv) as (K2 & K3 & K4).
           cbn [toks]. rewrite (tok_high _ (cont_high _ K2)),
                                (tok_high _ (cont_high _ K3)),
                                (tok_high _ (cont_high _ K4)), Hv.
           cbn [length] in Hlen.
           rewrite (IH r4) by (assumption || lia).
           cbn [bind]. rewrite !byte_nat. reflexivity.
Qed.

End UriRoundTrip.

(** X13. For every path that is well-formed text, the URI that
    [getFileName] writes is [file:///] followed by a text that
    [decodeURI] turns back into the path: the reference in the document
    names the file that was encoded, whatever characters its path has. *)
Theorem getFileName_decodes_back (fn : string) :
  wellFormed fn = true ->
  exists encoded,
    getFileName fn = "file:///" ++ encoded
    /\ Uri.decodeURI encoded = Ok fn.
Proof.
  intros Hwf. exists (Uri.encodeURI fn). split; [reflexivity|].
  unfold Uri.decodeURI. rewrite UriRoundTrip.lex_encodeURI. cbn [bind].
  now apply (UriRoundTrip.decodeToks_toks (length fn)).
Qed.

Lemma getFileName_decodes_back_witness :
  exists encoded,
    getFileName unicodePath = "file:///" ++ encoded
    /\ Uri.decodeURI encoded = Ok unicodePath.
Proof.
  apply (getFileName_decodes_back unicodePath). vm_compute. reflexivity.
Defined.

Example unicodePath_encoded :
  getFileName unicodePath = "file:////Users/me/%E4%BD%A0%20100%25/a%20b.avif".
Proof. vm_compute. reflexivity. Qed.

(* ===================================================================== *)
(** ** More on image extensions *)
(* ===================================================================== *)

Module CaseFacts.
Import NodePath.

Lemma lowerChar_slash (c : ascii) : Ascii.eqb (lowerChar c) slash = Ascii.eqb c slash.
Proof. destruct c as [[] [] [] [] [] [] [] []]; vm_compute; reflexivity. Qed.

Lemma lowerChar_dot (c : ascii) : Ascii.eqb (lowerChar c) dot = Ascii.eqb c dot.
Proof. destruct c as [[] [] [] [] [] [] [] []]; vm_compute; reflexivity. Qed.

Lemma lowerChar_idem (c : ascii) : lowerChar (lowerChar c) = lowerChar c.
Proof. destruct c as [[] [] [] [] [] [] [] []]; vm_compute; reflexivity. Qed.

Lemma toLowerCase_idem (s : string) : toLowerCase (toLowerCase s) = toLowerCase s.
Proof.
  induction s as [|c s IH]; [reflexivity|].
  cbn [toLowerCase]. now rewrite lowerChar_idem, IH.
Qed.

Lemma toLowerCase_chars (s : string) :
  list_ascii_of_string (toLowerCase s) = map lowerChar (list_ascii_of_string s).
Proof.
  induction s as [|c s IH]; [reflexivity|].
  cbn [toLowerCase list_ascii_of_string map]. now rewrite IH.
Qed.

Lemma toLowerCase_length (s : string) : length (toLowerCase s) = length s.
Proof. induction s as [|c s IH]; [reflexivity|]. cbn [toLowerCase length]. now rewrite IH. Qed.

Lemma toLowerCase_take (n : nat) (s : string) :
  take n (toLowerCase s) = toLowerCase (take n s).
Proof.
  revert s; induction n as [|n IH]; intros [|c s]; try reflexivity.
  cbn [toLowerCase take]. now rewrite IH.
Qed.

Lemma toLowerCase_drop (n : nat) (s : string) :
  drop n (toLowerCase s) = toLowerCase (drop n s).
Proof.
  revert s; induction n as [|n IH]; intros [|c s]; try reflexivity.
  cbn [toLowerCase drop]. apply IH.
Qed.

(** The loop of [extname] looks for separators and dots only. *)
Lemma extnameLoop_lower (l : list ascii) :
  forall i st, extnameLoop (map lowerChar l) i st = extnameLoop l i st.
Proof.
  induction l as [|c l IH]; intros i st; [reflexivity|].
  cbn [map extnameLoop]. rewrite lowerChar_slash, lowerChar_dot, !IH. reflexivity.
Qed.

Lemma extname_lower (p : string) :
  extname (toLowerCase p) = toLowerCase (extname p).
Proof.
  unfold extname.
  rewrite toLowerCase_chars, <- map_rev, extnameLoop_lower, toLowerCase_length.
  cbv zeta.
  match goal with |- (if ?b then _ else _) = _ => destruct b end; [reflexivity|].
  unfold JsString.slice. now rewrite toLowerCase_drop, toLowerCase_take.
Qed.

Lemma isAssetTypeAnImage_lower (p : string) :
  isAssetTypeAnImage (toLowerCase p) = isAssetTypeAnImage p.
Proof.
  unfold isAssetTypeAnImage. now rewrite extname_lower, toLowerCase_idem.
Qed.

End CaseFacts.

(** X14. [isAssetTypeAnImage] does not look at the case of letters: two
    paths that differ in the case of their letters only are both images
    or both not. *)
Theorem isAssetTypeAnImage_ignores_case (p q : string) :
  toLowerCase p = toLowerCase q ->
  isAssetTypeAnImage p = isAssetTypeAnImage q.
Proof.
  intros Hpq.
  rewrite <- (CaseFacts.isAssetTypeAnImage_lower p),
          <- (CaseFacts.isAssetTypeAnImage_lower q).
  now rewrite Hpq.
Qed.

Lemma isAssetTypeAnImage_ignores_case_witness :
  isAssetTypeAnImage "/Users/me/Shots/Cat.JPeG" = isAssetTypeAnImage "/users/ME/shots/cat.jpeg".
Proof.
  apply (isAssetTypeAnImage_ignores_case "/Users/me/Shots/Cat.JPeG" "/users/ME/shots/cat.jpeg").
  vm_compute. reflexivity.
Defined.

(* ===================================================================== *)
(** ** More on [decodeURI] in the Path Resolver *)
(* ===================================================================== *)

Module PercentFacts.

Lemma lex_percentFree (s : string) :
  percentFree s = true -> Uri.lex s = Ok (map Uri.Lit (list_ascii_of_string s)).
Proof.
  induction s as [|c s IH]; intros Hs; [reflexivity|].
  cbn [percentFree] in Hs. apply andb_true_iff in Hs as [Hc Hs].
  apply negb_true_iff in Hc.
  cbn [Uri.lex list_ascii_of_string map]. now rewrite Hc, (IH Hs).
Qed.

Lemma decodeToks_Lit (s : string) :
  Uri.decodeToks (map Uri.Lit (list_ascii_of_string s)) = Ok s.
Proof.
  induction s as [|c s IH]; [reflexivity|].
  cbn [list_ascii_of_string map Uri.decodeToks]. now rewrite IH.
Qed.

Lemma decodeURI_percentFree (s : string) :
  percentFree s = true -> Uri.decodeURI s = Ok s.
Proof.
  intros Hs. unfold Uri.decodeURI. rewrite (lex_percentFree _ Hs).
  apply decodeToks_Lit.
Qed.

End PercentFacts.

(** X15. With a setting that starts with [./], when the folder of the
    active document has no percent sign in its resolved path,
    [decodeURI] changes nothing and never raises: the attachment
    directory is the setting joined to [resolve(basePath, parent path)]. *)
Theorem percent_free_folder_resolves (env : Env) (activeFile : TFile) :
  getActiveFile env = Some activeFile ->
  startsWith (attachmentFolderPath env) "./" = true ->
  percentFree (NodePath.resolve (cwd env) [getBasePath env; parentPath activeFile]) = true ->
  getFileAssetPath env
  = Ok (NodePath.join
          [NodePath.resolve (cwd env) [getBasePath env; parentPath activeFile];
           attachmentFolderPath env]).
Proof.
  intros Hf Hs Hp. unfold getFileAssetPath.
  now rewrite Hf, Hs, (PercentFacts.decodeURI_percentFree _ Hp).
Qed.

Lemma percent_free_folder_resolves_witness :
  getFileAssetPath rootNoteEnv
  = Ok (NodePath.join
          [NodePath.resolve (cwd rootNoteEnv) [getBasePath rootNoteEnv; "/"];
           attachmentFolderPath rootNoteEnv]).
Proof.
  apply (percent_free_folder_resolves rootNoteEnv {| parentPath := "/" |});
    vm_compute; reflexivity.
Defined.

(* ===================================================================== *)
(** ** More on the placeholder replacement *)
(* ===================================================================== *)

Module CancelFacts.
Import StringFacts.

Lemma app_inv_head (a x y : string) : a ++ x = a ++ y -> x = y.
Proof.
  induction a as [|c a IH]; cbn [append]; intros Heq; [exact Heq|].
  injection Heq as Heq. now apply IH.
Qed.

Lemma app_inv_tail (x y b : string) : x ++ b = y ++ b -> x = y.
Proof.
  revert y; induction x as [|c x IH]; intros y Heq.
  - destruct y as [|d y]; [reflexivity|].
    apply (f_equal length) in Heq. rewrite !length_app in Heq.
    cbn [length] in Heq. lia.
  - destruct y as [|d y].
    + apply (f_equal length) in Heq. rewrite !length_app in Heq.
      cbn [length] in Heq. lia.
    + cbn [append] in Heq. injection Heq as -> Heq. f_equal. now apply IH.
Qed.

End CancelFacts.

(** X16. Two pastes have the same placeholder only if they have the same
    id. *)
Theorem progressTextFor_injective (id1 id2 : string) :
  progressTextFor id1 = progressTextFor id2 -> id1 = id2.
Proof.
  unfold progressTextFor. intros Heq.
  apply CancelFacts.app_inv_head in Heq.
  now apply CancelFacts.app_inv_tail in Heq.
Qed.

Lemma progressTextFor_injective_witness : "abc" = "abc".
Proof.
  apply (progressTextFor_injective "abc" "abc"). reflexivity.
Defined.

(** X17. For the same vault, day and attachment directory, two pastes
    whose random tokens differ write to different temporary files and to
    different encoded files. *)
Theorem distinct_tokens_distinct_paths (env1 env2 : Env) (dir : string) :
  getName env1 = getName env2 ->
  today env1 = today env2 ->
  getFileAssetPath env1 = Ok dir ->
  getFileAssetPath env2 = Ok dir ->
  randomToken env1 <> randomToken env2 ->
  temporaryRawPath env1 <> temporaryRawPath env2
  /\ fullAvifPath env1 <> fullAvifPath env2.
Proof.
  intros Hn Hd Hd1 Hd2 Htok.
  assert (Htmp : forall env,
    temporaryRawPath env
    = ("/tmp/" ++ getName env ++ formatDate (today env)) ++ randomToken env ++ ".png").
  { intros env. unfold temporaryRawPath, pngPath, randomPrefix, baseFile, timebase.
    now rewrite !StringFacts.app_assoc. }
  assert (Hfull : forall env,
    getFileAssetPath env = Ok dir ->
    fullAvifPath env
    = Ok ((dir ++ "/" ++ getName env ++ formatDate (today env))
          ++ randomToken env ++ ".avif")).
  { intros env Hdir.
    unfold fullAvifPath, avifName, randomPrefix, baseFile, timebase.
    rewrite Hdir. cbn [bind]. now rewrite !StringFacts.app_assoc. }
  split; intros Heq; apply Htok.
  - rewrite !Htmp, Hn, Hd in Heq.
    apply CancelFacts.app_inv_head in Heq.
    now apply CancelFacts.app_inv_tail in Heq.
  - rewrite (Hfull _ Hd1), (Hfull _ Hd2), Hn, Hd in Heq.
    assert (Heq' : forall x y : string, Ok x = Ok y -> x = y)
      by (intros x y Hxy; now injection Hxy).
    apply Heq' in Heq.
    apply CancelFacts.app_inv_head in Heq.
    now apply CancelFacts.app_inv_tail in Heq.
Qed.

Lemma distinct_tokens_distinct_paths_witness :
  temporaryRawPath spacedEnv <> temporaryRawPath (withRandomText spacedEnv "1.i")
  /\ fullAvifPath spacedEnv <> fullAvifPath (withRandomText spacedEnv "1.i").
Proof.
  apply (distinct_tokens_distinct_paths spacedEnv (withRandomText spacedEnv "1.i")
           "/Users/me/My Vault/attachments");
    try (vm_compute; reflexivity).
  vm_compute. discriminate.
Defined.

Section MutatorMore.

Context {E : Type} `{Editor E}.
Import StringFacts LineScan.

(** X18. A target with a line break in it is never replaced, not even
    when the document holds it: the scan looks at one line at a time. *)
Theorem replaceFirstOccurrence_multiline_target_noop
  (e : E) (target replacement : string) :
  nlfree target = false ->
  replaceFirstOccurrence e target replacement = e.
Proof.
  intros Hnl. unfold replaceFirstOccurrence.
  rewrite replaceFirstOccurrenceFrom_firstHit.
  destruct (firstHit target (split nl (getValue e))) as [[k c]|] eqn:Hh;
    [|reflexivity].
  exfalso.
  destruct (firstHit_line _ _ _ _ Hh) as (lk & Hk & Hc).
  assert (Hl : nlfree lk = true).
  { apply (proj1 (Forall_forall _ _) (split_nlfree (getValue e))).
    eapply nth_error_In; eassumption. }
  destruct (find_Some _ _ _ Hc) as (pre & post & Hlk & _).
  assert (Ht : nlfree target = true)
    by (apply (nlfree_Occurs target lk); [now exists pre, post | assumption]).
  congruence.
Qed.

(** X19. With an empty target the replacement is written at the very
    start of the document, whatever the document holds. *)
Theorem replaceFirstOccurrence_empty_target_prepends
  (e : E) (replacement : string) :
  getValue (replaceFirstOccurrence e EmptyString replacement)
  = replacement ++ getValue e.
Proof.
  unfold replaceFirstOccurrence.
  rewrite replaceFirstOccurrenceFrom_firstHit.
  destruct (split_cons nl (getValue e)) as (l0 & ls & Hs).
  assert (Hh : firstHit EmptyString (split nl (getValue e)) = Some (0, 0)).
  { rewrite Hs. cbn [firstHit]. now destruct l0. }
  rewrite Hh, getValue_replaceRange.
  change (0 + Z.of_nat 0)%Z with (Z.of_nat 0).
  change (Z.of_nat 0 + Z.of_nat (length EmptyString))%Z with (Z.of_nat 0).
  rewrite (posToOffset_inside _ l0 0 0) by first [ now rewrite Hs | lia ].
  unfold splice. rewrite Hs. cbn [lineStart Nat.add].
  now destruct (getValue e).
Qed.

End MutatorMore.

Lemma replaceFirstOccurrence_multiline_target_noop_witness :
  replaceFirstOccurrence twoLineNote ("first" ++ String nl "second") "gone" = twoLineNote.
Proof.
  apply (replaceFirstOccurrence_multiline_target_noop twoLineNote
           ("first" ++ String nl "second") "gone").
  vm_compute. reflexivity.
Defined.

(* ===================================================================== *)
(** ** Settings *)
(* ===================================================================== *)

Module SettingsFacts.
Import Settings.

Lemma getProp_setProp (o : JsObject) (key value key' : string) :
  getProp (setProp o key value) key'
  = if String.eqb key key' then Some value else getProp o key'.
Proof.
  induction o as [|[k v] o IH]; cbn [setProp getProp].
  - reflexivity.
  - destruct (String.eqb k key) eqn:Hk; cbn [getProp].
    + apply String.eqb_eq in Hk. subst k.
      now destruct (String.eqb key key').
    + rewrite IH. destruct (String.eqb k key') eqn:Hk'; [|reflexivity].
      apply String.eqb_eq in Hk'. subst k. now rewrite String.eqb_sym, Hk.
Qed.

(** What [Object.assign] leaves under a key: the source's value when the
    source has the key, the target's otherwise. *)
Lemma getProp_assignFrom (source : JsObject) :
  isObject source ->
  forall target key,
    getProp (assignFrom target source) key
    = match getProp source key with
      | Some v => Some v
      | None => getProp target key
      end.
Proof.
  unfold isObject, assignFrom.
  induction source as [|[k v] source IH]; intros Hnd target key; [reflexivity|].
  cbn [map fst] in Hnd. inversion Hnd as [|? ? Hnotin Hnd']; subst.
  cbn [fold_left fst snd getProp]. rewrite (IH Hnd'), getProp_setProp.
  destruct (String.eqb k key) eqn:Hk; [|reflexivity].
  apply String.eqb_eq in Hk. subst k.
  destruct (getProp source key) as [v'|] eqn:Hg; [|reflexivity].
  exfalso. apply Hnotin. clear - Hg.
  induction source as [|[k' w] source IH]; [discriminate|].
  cbn [getProp] in Hg. cbn [map fst].
  destruct (String.eqb k' key) eqn:Hk'.
  - left. now apply String.eqb_eq.
  - right. now apply IH.
Qed.

Lemma setProp_keys_In (o : JsObject) (key value k : string) :
  In k (map fst (setProp o key value)) <-> k = key \/ In k (map fst o).
Proof.
  induction o as [|[k' v] o IH]; cbn [setProp map fst In].
  - intuition.
  - destruct (String.eqb k' key) eqn:Hk; cbn [map fst In].
    + apply String.eqb_eq in Hk. subst k'. intuition.
    + rewrite IH. intuition.
Qed.

Lemma setProp_isObject (o : JsObject) (key value : string) :
  isObject o -> isObject (setProp o key value).
Proof.
  unfold isObject. induction o as [|[k v] o IH]; intros Hnd; cbn [setProp].
  - cbn. constructor; [intros [] | constructor].
  - cbn [map fst] in Hnd. inversion Hnd as [|? ? Hnotin Hnd']; subst.
    destruct (String.eqb k key) eqn:Hk; cbn [map fst].
    + now constructor.
    + constructor; [|now apply IH].
      rewrite setProp_keys_In. intros [-> | Hin]; [|contradiction].
      now rewrite String.eqb_refl in Hk.
Qed.

End SettingsFacts.

(** X20. After [loadSettings] the encoder's path is always defined: it is
    the stored one when the stored data has one, the default otherwise
    (also when nothing was ever saved). *)
Theorem loadSettings_avifPath (st : Settings.PluginState) :
  (forall data, Settings.stored st = Some data -> Settings.isObject data) ->
  Settings.getProp (Settings.pluginSettings (Settings.loadSettings st)) "avifPath"
  = Some match Settings.stored st with
         | Some data =>
             match Settings.getProp data "avifPath" with
             | Some saved => saved
             | None => avifPath DEFAULT_SETTINGS
             end
         | None => avifPath DEFAULT_SETTINGS
         end.
Proof.
  intros Hobj. unfold Settings.loadSettings, Settings.assign.
  cbn [Settings.pluginSettings fold_left].
  destruct (Settings.stored st) as [data|]; [|reflexivity].
  rewrite (SettingsFacts.getProp_assignFrom data (Hobj data eq_refl)).
  destruct (Settings.getProp data "avifPath"); reflexivity.
Qed.

(** X21. What is saved is what is loaded: after [saveSettings] and
    [loadSettings], every key of settings that have an [avifPath] holds
    the value it held; so a value typed into the settings tab is there
    after the next load, and the encoder's path with it. *)
Theorem save_then_load (st : Settings.PluginState) (key : string) :
  Settings.isObject (Settings.pluginSettings st) ->
  Settings.getProp (Settings.pluginSettings st) "avifPath" <> None ->
  Settings.getProp
    (Settings.pluginSettings (Settings.loadSettings (Settings.saveSettings st))) key
  = Settings.getProp (Settings.pluginSettings st) key
  /\ forall value,
       Settings.getProp
         (Settings.pluginSettings (Settings.loadSettings (Settings.onChange value st)))
         key
       = if String.eqb "mySetting" key then Some value
         else Settings.getProp (Settings.pluginSettings st) key.
Proof.
  intros Hobj Hpath.
  assert (Hload : forall o,
    Settings.isObject o -> Settings.getProp o "avifPath" <> None ->
    Settings.getProp
      (Settings.pluginSettings
         (Settings.loadSettings {| Settings.pluginSettings := o;
                                   Settings.stored := Some o |})) key
    = Settings.getProp o key).
  { intros o Ho Hp. unfold Settings.loadSettings, Settings.assign.
    cbn [Settings.pluginSettings Settings.stored fold_left].
    rewrite (SettingsFacts.getProp_assignFrom o Ho).
    destruct (Settings.getProp o key) as [v|] eqn:Hk; [reflexivity|].
    cbn [Settings.assignFrom Settings.defaultSettings fold_left fst snd
         Settings.setProp Settings.getProp].
    destruct (String.eqb "avifPath" key) eqn:He; [|reflexivity].
    apply String.eqb_eq in He. subst key. contradiction. }
  split.
  - exact (Hload _ Hobj Hpath).
  - intros value. unfold Settings.onChange, Settings.saveSettings.
    cbn [Settings.pluginSettings Settings.stored].
    rewrite Hload.
    + apply SettingsFacts.getProp_setProp.
    + now apply SettingsFacts.setProp_isObject.
    + rewrite SettingsFacts.getProp_setProp.
      now destruct (String.eqb "mySetting" "avifPath").
Qed.

Lemma loadSettings_avifPath_witness :
  Settings.getProp (Settings.pluginSettings (Settings.loadSettings configuredPlugin)) "avifPath"
  = Some match Settings.stored configuredPlugin with
         | Some data =>
             match Settings.getProp data "avifPath" with
             | Some saved => saved
             | None => avifPath DEFAULT_SETTINGS
             end
         | None => avifPath DEFAULT_SETTINGS
         end.
Proof.
  apply (loadSettings_avifPath configuredPlugin).
  intros data Hd. injection Hd as <-.
  unfold Settings.isObject. cbn [map fst].
  repeat constructor; cbn [In]; intros Hin;
    repeat (destruct Hin as [Hin | Hin]; [discriminate|]); exact Hin.
Defined.

Example configuredPlugin_path :
  Settings.getProp (Settings.pluginSettings (Settings.loadSettings configuredPlugin)) "avifPath"
  = Some "/opt/homebrew/bin/avif"
  /\ Settings.getProp (Settings.pluginSettings (Settings.loadSettings freshPlugin)) "avifPath"
     = Some "/Users/$USER/go/bin/avif".
Proof. split; vm_compute; reflexivity. Qed.

Lemma save_then_load_witness :
  Settings.getProp
    (Settings.pluginSettings
       (Settings.loadSettings (Settings.saveSettings (Settings.loadSettings freshPlugin))))
    "avifPath"
  = Settings.getProp (Settings.pluginSettings (Settings.loadSettings freshPlugin)) "avifPath"
  /\ forall value,
       Settings.getProp
         (Settings.pluginSettings
            (Settings.loadSettings (Settings.onChange value (Settings.loadSettings freshPlugin))))
         "avifPath"
       = if String.eqb "mySetting" "avifPath" then Some value
         else Settings.getProp (Settings.pluginSettings (Settings.loadSettings freshPlugin))
                "avifPath".
Proof.
  apply (save_then_load (Settings.loadSettings freshPlugin) "avifPath").
  - unfold Settings.isObject. vm_compute. repeat constructor. intros [].
  - vm_compute. discriminate.
Defined.

(* ===================================================================== *)
(** ** The URI written into the document *)
(* ===================================================================== *)

Module EncodeFacts.
Import StringFacts.

Lemma isUpperHex_hexDigit (n : nat) : isUpperHex (Uri.hexDigit n) = true.
Proof.
  do 16 (destruct n as [|n]; [vm_compute; reflexivity|]).
  reflexivity.
Qed.

Lemma escapesOK_encodeURI (s : string) : escapesOK (Uri.encodeURI s) = true.
Proof.
  induction s as [|c s IH]; [reflexivity|].
  cbn [Uri.encodeURI]. destruct (Uri.unescaped c) eqn:Hu.
  - cbn [append escapesOK].
    now rewrite (UriRoundTrip.unescaped_not_percent _ Hu), Hu, IH.
  - unfold Uri.escape. cbv zeta. cbn [append escapesOK].
    now rewrite Ascii.eqb_refl, !isUpperHex_hexDigit, IH.
Qed.

Lemma length_encodeURI (s : string) :
  length (Uri.encodeURI s) = length s + 2 * escapedCount s.
Proof.
  induction s as [|c s IH]; [reflexivity|].
  cbn [Uri.encodeURI escapedCount]. rewrite length_app, IH.
  destruct (Uri.unescaped c); cbn [length Uri.escape]; lia.
Qed.

Lemma tokByte_toks (s : string) :
  map tokByte (UriRoundTrip.toks s) = map nat_of_ascii (list_ascii_of_string s).
Proof.
  induction s as [|c s IH]; [reflexivity|].
  cbn [UriRoundTrip.toks list_ascii_of_string map]. rewrite IH. f_equal.
  unfold UriRoundTrip.tok. cbv zeta. now destruct (Uri.unescaped c).
Qed.

End EncodeFacts.

Section EmbedTheorems.

Context {E : Type} `{Editor E}.

(** C9. For every path, the URI written into the document is [file:///]
    followed by the URI-encoded path, and [insertTemporaryText] replaces
    the selection, and nothing but the selection, with [![](], that URI,
    [)] and a line break. The encoded path is the URI encoding of the
    path: it is written with characters that need no escape and with
    escapes of a percent sign and two upper-case hexadecimal digits; it
    reads, token by token, as the bytes of the path; it escapes the
    characters that need an escape and no other; and [decodeURI] gives
    the path back. *)
Theorem insertTemporaryText_embeds (e : E) (finalEncodedPath : string) :
  getFileName finalEncodedPath = "file:///" ++ Uri.encodeURI finalEncodedPath
  /\ allChars uriChar (Uri.encodeURI finalEncodedPath) = true
  /\ insertTemporaryText e finalEncodedPath
     = replaceSelection
         ("![](" ++ getFileName finalEncodedPath ++ ")" ++ String nl EmptyString) e
  /\ getValue (insertTemporaryText e finalEncodedPath)
     = take (fst (selectionRange e)) (getValue e)
       ++ ("![](" ++ ("file:///" ++ Uri.encodeURI finalEncodedPath) ++ ")"
           ++ String nl EmptyString)
       ++ drop (snd (selectionRange e)) (getValue e)
  /\ escapesOK (Uri.encodeURI finalEncodedPath) = true
  /\ (exists tokens,
        Uri.lex (Uri.encodeURI finalEncodedPath) = Ok tokens
        /\ map tokByte tokens
           = map nat_of_ascii (list_ascii_of_string finalEncodedPath))
  /\ length (Uri.encodeURI finalEncodedPath)
     = length finalEncodedPath + 2 * escapedCount finalEncodedPath
  /\ (wellFormed finalEncodedPath = true ->
      Uri.decodeURI (Uri.encodeURI finalEncodedPath) = Ok finalEncodedPath).
Proof.
  split; [reflexivity|]. split; [apply UriFacts.encodeURI_uriChars|].
  split; [reflexivity|].
  split; [unfold insertTemporaryText; rewrite getValue_replaceSelection; reflexivity|].
  split; [apply EncodeFacts.escapesOK_encodeURI|].
  split.
  { exists (UriRoundTrip.toks finalEncodedPath).
    split; [apply UriRoundTrip.lex_encodeURI | apply EncodeFacts.tokByte_toks]. }
  split; [apply EncodeFacts.length_encodeURI|].
  intros Hwf. unfold Uri.decodeURI.
  rewrite UriRoundTrip.lex_encodeURI. cbn [bind].
  now apply (UriRoundTrip.decodeToks_toks (length finalEncodedPath)).
Qed.

End EmbedTheorems.

Lemma insertTemporaryText_embeds_witness :
  Uri.decodeURI (Uri.encodeURI unicodePath) = Ok unicodePath
  /\ getFileName unicodePath = "file:////Users/me/%E4%BD%A0%20100%25/a%20b.avif".
Proof.
  split.
  - apply (insertTemporaryText_embeds (editor emptyWorld) unicodePath).
    vm_compute. reflexivity.
  - vm_compute. reflexivity.
Defined.

(* ===================================================================== *)
(** ** The attachment directory of a document in a folder of the vault *)
(* ===================================================================== *)

Module FolderFacts.
Import StringFacts NodePath.

(** For a folder path of the vault (a relative path), resolving it
    against the root path is resolving the root path followed by it. *)
Lemma resolve_below_root (cwd base parent : string) :
  isAbsolute base = true ->
  isAbsolute parent = false ->
  resolve cwd [base; parent] = resolve cwd [base ++ "/" ++ parent].
Proof.
  intros Hb Hp. destruct (PathFacts.isAbsolute_inv _ Hb) as (b' & ->).
  unfold resolve.
  change (rev [String slash b'; parent]) with [parent; String slash b'].
  change (rev [String slash b' ++ "/" ++ parent])
    with [String slash (b' ++ "/" ++ parent)].
  cbn [resolveArgs].
  change (isAbsolute (String slash (b' ++ "/" ++ parent))) with true.
  change (isAbsolute (String slash b')) with true. cbv iota.
  change (String slash (b' ++ "/" ++ parent)) with (String slash b' ++ "/" ++ parent).
  destruct parent as [|c p].
  - cbv iota zeta. cbn [negb].
    change ("/" ++ EmptyString) with "/".
    now rewrite !PathFacts.normalizeString_trailing.
  - rewrite Hp. cbv iota zeta. cbn [negb].
    now rewrite !app_assoc.
Qed.

Lemma resolve_one_absolute (cwd p : string) :
  isAbsolute p = true -> isAbsolute (resolve cwd [p]) = true.
Proof.
  intros Hp. destruct (PathFacts.isAbsolute_inv _ Hp) as (p' & ->).
  reflexivity.
Qed.

End FolderFacts.

(** C5 (as the code has it). With a document open, a setting that does
    not start with [./] is joined to the root path. A setting that
    starts with [./] is joined to the folder of the active document, for
    a document in a folder of the vault (a relative folder path, below
    an absolute root path) whose path holds no percent sign; and the
    joined path is the resolved one,
    [resolve(activeDocumentFolder, setting)], whenever the setting does
    not end in a separator. *)
Theorem getFileAssetPath_branches (env : Env) (activeFile : TFile) :
  getActiveFile env = Some activeFile ->
  (startsWith (attachmentFolderPath env) "./" = false ->
   getFileAssetPath env
   = Ok (NodePath.join [getBasePath env; attachmentFolderPath env]))
  /\ (startsWith (attachmentFolderPath env) "./" = true ->
      NodePath.isAbsolute (getBasePath env) = true ->
      NodePath.isAbsolute (parentPath activeFile) = false ->
      percentFree (documentFolder env activeFile) = true ->
      getFileAssetPath env
      = Ok (NodePath.join [documentFolder env activeFile; attachmentFolderPath env])
      /\ (NodePath.endsWithSlash (attachmentFolderPath env) = false ->
          getFileAssetPath env
          = Ok (NodePath.resolve (cwd env)
                  [documentFolder env activeFile; attachmentFolderPath env]))).
Proof.
  intros Hf. split.
  - intros Hs. unfold getFileAssetPath. now rewrite Hf, Hs.
  - intros Hs Hb Hp Hfree.
    assert (Hjoin : getFileAssetPath env
                    = Ok (NodePath.join [documentFolder env activeFile;
                                         attachmentFolderPath env])).
    { unfold getFileAssetPath. rewrite Hf, Hs.
      rewrite (FolderFacts.resolve_below_root _ _ _ Hb Hp).
      fold (documentFolder env activeFile).
      now rewrite (PercentFacts.decodeURI_percentFree _ Hfree). }
    split; [exact Hjoin|].
    intros Hend. rewrite Hjoin. f_equal.
    apply PathFacts.join_resolve_relative; try assumption.
    apply FolderFacts.resolve_one_absolute.
    destruct (PathFacts.isAbsolute_inv _ Hb) as (b' & ->). reflexivity.
Qed.

Lemma getFileAssetPath_branches_witness :
  documentFolder besideNoteEnv {| parentPath := "notes/2024" |}
  = "/Users/me/My Vault/notes/2024"
  /\ getFileAssetPath besideNoteEnv
     = Ok (NodePath.join [documentFolder besideNoteEnv {| parentPath := "notes/2024" |};
                          attachmentFolderPath besideNoteEnv])
  /\ getFileAssetPath besideNoteEnv
     = Ok (NodePath.resolve (cwd besideNoteEnv)
             [documentFolder besideNoteEnv {| parentPath := "notes/2024" |};
              attachmentFolderPath besideNoteEnv])
  /\ getFileAssetPath besideNoteEnv = Ok "/Users/me/My Vault/notes/2024/assets".
Proof.
  pose proof (getFileAssetPath_branches besideNoteEnv {| parentPath := "notes/2024" |}
                eq_refl) as [_ Hrel].
  destruct Hrel as [Hjoin Hres]; try (vm_compute; reflexivity).
  split; [vm_compute; reflexivity|].
  split; [exact Hjoin|].
  split; [apply Hres; vm_compute; reflexivity | vm_compute; reflexivity].
Defined.

(** With the setting [attachments] the directory is under the root. *)
Example spacedEnv_under_root :
  getFileAssetPath spacedEnv = Ok "/Users/me/My Vault/attachments".
Proof. vm_compute. reflexivity. Qed.
